(** * spam_lists.service_models: clients of host and URL listing services

    A shallow embedding of [spam_lists/service_models.py] and the
    properties of its classes [HostList], [DNSBL], [GoogleSafeBrowsing]
    and [HostCollection].

    Python values are modelled as follows:
    - an exception is a constructor of [exn]; a call that may raise
      returns a [result];
    - code that talks to the network runs in the monad [M], which threads
      the history of requests issued so far and may raise;
    - a generator is a value of [Gen]: each [next] either stops, raises or
      yields one element together with the rest of the generator;
    - a Python [set] of hosts is the list of its members in iteration
      order; a set of classification labels is a [gset string]. *)

From Stdlib Require Import ZArith Ascii String.
From stdpp Require Import base list strings gmap pretty.

Local Open Scope string_scope.
Local Open Scope list_scope.

(** ** Exceptions and results *)

(** The exceptions that the module raises, catches or lets through. *)
Inductive exn : Type :=
| InvalidHostError
| InvalidURLError
| UnknownCodeError (msg : string)
| UnathorizedAPIKeyError (msg : string)
| HTTPError
| NXDOMAIN
| ConnectionError
| ValueError
| TypeError
| AttributeError
| NotImplementedError.

Inductive result (A : Type) : Type :=
| Ok (a : A)
| Raise (e : exn).
Arguments Ok {A} a.
Arguments Raise {A} e.

Definition rbind {A B} (r : result A) (k : A -> result B) : result B :=
  match r with
  | Ok a => k a
  | Raise e => Raise e
  end.

(** ** Effects *)

(** Requests sent to the outside world. *)
Inductive event : Type :=
| DnsQuery (query_name : string)
| HttpPost (url body : string).

(** The history of requests, oldest first. *)
Definition World : Type := list event.

(** A computation with network effects: it extends the history and
    returns or raises. *)
Definition M (A : Type) : Type := World -> result A * World.

Definition ret {A} (a : A) : M A := fun w => (Ok a, w).

Definition raise {A} (e : exn) : M A := fun w => (Raise e, w).

Definition lift {A} (r : result A) : M A := fun w => (r, w).

Definition bind {A B} (m : M A) (k : A -> M B) : M B :=
  fun w =>
    match m w with
    | (Ok a, w') => k a w'
    | (Raise e, w') => (Raise e, w')
    end.

(** [try: m except ...: handler]; [handler e] is [None] for an exception
    that the [except] clause does not catch. *)
Definition try_except {A} (m : M A) (handler : exn -> option (M A)) : M A :=
  fun w =>
    match m w with
    | (Ok a, w') => (Ok a, w')
    | (Raise e, w') =>
        match handler e with
        | Some h => h w'
        | None => (Raise e, w')
        end
    end.

Notation "x <- m ; k" := (bind m (fun x => k))
  (at level 20, m at level 100, k at level 200, only parsing).
Notation "x <~ r ; k" := (rbind r (fun x => k))
  (at level 20, r at level 100, k at level 200, only parsing).

(** ** Generators *)

(** [next(g)] runs the body of the generator up to its next [yield]. *)
Inductive Gen (A : Type) : Type :=
| MkGen (step : World -> GenStep A)
with GenStep (A : Type) : Type :=
| GenStop (w : World)
| GenYield (a : A) (rest : Gen A) (w : World)
| GenRaise (e : exn) (w : World).
Arguments MkGen {A} step.
Arguments GenStop {A} w.
Arguments GenYield {A} a rest w.
Arguments GenRaise {A} e w.

Module Py.

Definition next {A} (g : Gen A) : World -> GenStep A :=
  match g with MkGen step => step end.

(** [for x in xs: y = body(x); if y is not None: yield y], which covers
    generator expressions with and without a filter. *)
Fixpoint gen_for {A B} (xs : list A) (body : A -> M (option B)) : Gen B :=
  MkGen (fun w =>
    match xs with
    | [] => GenStop w
    | x :: xs' =>
        match body x w with
        | (Raise e, w') => GenRaise e w'
        | (Ok (Some y), w') => GenYield y (gen_for xs' body) w'
        | (Ok None, w') => next (gen_for xs' body) w'
        end
    end).

(** [for y in ys: yield y], then go on as [k]. *)
Fixpoint gen_yield_from {B} (ys : list B) (k : Gen B) : Gen B :=
  match ys with
  | [] => k
  | y :: ys' => MkGen (fun w => GenYield y (gen_yield_from ys' k) w)
  end.

(** [for x in g: for y in f(x): yield y] with a pure inner loop. *)
Fixpoint gen_flat_map {A B} (f : A -> list B) (g : Gen A) : Gen B :=
  match g with
  | MkGen step =>
      MkGen (fun w =>
        match step w with
        | GenStop w' => GenStop w'
        | GenRaise e w' => GenRaise e w'
        | GenYield a rest w' =>
            next (gen_yield_from (f a) (gen_flat_map f rest)) w'
        end)
  end.

(** [list(g)]. *)
Fixpoint to_list {A} (g : Gen A) (w : World) : result (list A) * World :=
  match g with
  | MkGen step =>
      match step w with
      | GenStop w' => (Ok [], w')
      | GenRaise e w' => (Raise e, w')
      | GenYield a rest w' =>
          match to_list rest w' with
          | (Ok l, w'') => (Ok (a :: l), w'')
          | (Raise e, w'') => (Raise e, w'')
          end
      end
  end.

(** [any(g)] for a generator of booleans: it stops at the first true
    element. *)
Fixpoint any (g : Gen bool) (w : World) : result bool * World :=
  match g with
  | MkGen step =>
      match step w with
      | GenStop w' => (Ok false, w')
      | GenRaise e w' => (Raise e, w')
      | GenYield true _ w' => (Ok true, w')
      | GenYield false rest w' => any rest w'
      end
  end.

(** [any(g)] for a generator of non-empty tuples, all of which are
    true: it stops at the first element. *)
Definition any_tuple {A} (g : Gen A) : M bool :=
  fun w =>
    match next g w with
    | GenStop w' => (Ok false, w')
    | GenRaise e w' => (Raise e, w')
    | GenYield _ _ w' => (Ok true, w')
    end.

(** [s.split(sep)] for a separator of one character. *)
Fixpoint split (sep : ascii) (s : string) : list string :=
  match s with
  | EmptyString => [EmptyString]
  | String c s' =>
      if Ascii.eqb c sep then EmptyString :: split sep s'
      else
        match split sep s' with
        | piece :: pieces => String c piece :: pieces
        | [] => [String c EmptyString]
        end
  end.

(** [sep.join(pieces)]. *)
Fixpoint join (sep : string) (pieces : list string) : string :=
  match pieces with
  | [] => EmptyString
  | [piece] => piece
  | piece :: rest => piece +:+ sep +:+ join sep rest
  end.

Definition digit_value (c : ascii) : option Z :=
  let n := Z.of_N (N_of_ascii c) in
  if ((48 <=? n) && (n <=? 57))%Z then Some (n - 48)%Z else None.

Fixpoint int_digits (acc : Z) (s : string) : option Z :=
  match s with
  | EmptyString => Some acc
  | String c s' =>
      match digit_value c with
      | Some d => int_digits (10 * acc + d)%Z s'
      | None => None
      end
  end.

(** [int(s)] on the decimal text of a number, as found in the text of a
    DNS answer; any other text is a [ValueError]. *)
Definition int (s : string) : result Z :=
  match s with
  | EmptyString => Raise ValueError
  | _ =>
      match int_digits 0 s with
      | Some n => Ok n
      | None => Raise ValueError
      end
  end.

(** [range(0, stop, step)] for a positive [step]. *)
Definition range (stop step : nat) : list nat :=
  map (fun k => k * step) (seq 0 ((stop + step - 1) / step)).

(** [l[i:j]] for indices that are not negative. *)
Definition slice {A} (l : list A) (i j : nat) : list A :=
  take (j - i) (drop i l).

Definition newline : string := String (ascii_of_nat 10) EmptyString.

(** [needle in s] for two strings. *)
Fixpoint contains (needle s : string) : bool :=
  String.prefix needle s
  || match s with
     | EmptyString => false
     | String _ s' => contains needle s'
     end.

End Py.

(** ** The modules imported by [service_models] *)

(** The host objects of [structures.py], as far as this module uses
    them: equality, the subdomain test, the text of a host, the relative
    domain used in a DNSBL query, and the factory that accepts a hostname
    or an IP address. *)
Class Structures (Host : Type) : Type := {
  host_eq : Host -> Host -> bool;
  is_subdomain : Host -> Host -> bool;
  to_unicode : Host -> string;
  relative_domain : Host -> string;
  hostname_or_ip : string -> result Host
}.

(** Modelled from the spec: [structures.py] is absent; the spec gives the
    subdomain test as [is_subdomain(other)], a method of one argument, and
    this module calls it with one argument everywhere but in
    [HostCollection.add].  A call with any other number of arguments is a
    [TypeError], as for every Python method without default values. *)
Definition call_is_subdomain {Host : Type} {structures : Structures Host}
  (self : Host) (args : list Host) : result bool :=
  match args with
  | [other] => Ok (is_subdomain self other)
  | _ => Raise TypeError
  end.

(** A matched item: [AddressListItem(value, source, classification)]. *)
Record AddressListItem (Source : Type) : Type := {
  value : string;
  source : Source;
  item_classification : gset string
}.
Arguments Build_AddressListItem {Source} _ _ _.
Arguments value {Source} _.
Arguments source {Source} _.
Arguments item_classification {Source} _.

(** A response of [requests.post]. *)
Record Response : Type := {
  status_code : Z;
  text : string
}.

(** [response.raise_for_status()] of the requests library: an
    [HTTPError] for the client and server error codes. *)
Definition raise_for_status (response : Response) : result unit :=
  if ((400 <=? status_code response) && (status_code response <? 600))%Z
  then Raise HTTPError
  else Ok tt.

(** What the module takes from its environment: the validity predicates
    of [validation.py], [urlparse(u).hostname], [str.splitlines], the order
    in which a set of strings is listed, and the answers of the network to
    [dns.resolver.query] and [requests.post], given the requests made so
    far. *)
Class Environment : Type := {
  is_valid_host : string -> bool;
  is_valid_url : string -> bool;
  urlparse_hostname : string -> string;
  splitlines : string -> list string;
  list_of_set : list string -> list string;
  query_answer : World -> string -> result (list string);
  post_response : World -> string -> string -> result Response
}.

(** [dns.resolver.query(query_name)]: the texts of the records of the
    answer. *)
Definition query {env : Environment} (query_name : string) : M (list string) :=
  fun w => (query_answer w query_name, w ++ [DnsQuery query_name]).

(** [requests.post(url, body)]. *)
Definition post {env : Environment} (url body : string) : M Response :=
  fun w => (post_response w url body, w ++ [HttpPost url body]).

(** Modelled from the spec: [validation.py] is absent.  A method
    decorated with [accepts_valid_host] raises [InvalidHostError] when its
    argument is not a valid host string, as the docstrings of
    [HostList.__contains__] and [HostList.lookup] say, and runs otherwise. *)
Definition accepts_valid_host {env : Environment} {A} (func : string -> M A)
  (host_value : string) : M A :=
  if is_valid_host host_value then func host_value else raise InvalidHostError.

(** Modelled from the spec: [validation.py] is absent.  "All bulk
    operations fail with an URL-validity error if any input URL is
    syntactically invalid", and they "propagate validity errors eagerly
    before performing any lookup": the decorator checks every URL of the
    sequence and only then calls the method. *)
Definition accepts_valid_urls {env : Environment} {A} (func : list string -> M A)
  (urls : list string) : M A :=
  if forallb is_valid_url urls then func urls else raise InvalidURLError.

(** ** class HostList *)

Module HostList.
Section HostList.
Context {Host : Type} {structures : Structures Host} {env : Environment}.

(** What a subclass provides: the attribute [_host_factory], whose
    lookup is an [AttributeError] while it is not assigned, and the
    methods [_contains] and [_get_match_and_classification].  The tuple
    [None, None] is [None] and the tuple [item, classification] is
    [Some (item, classification)]. *)
Class Service (Self : Type) : Type := {
  _host_factory : Self -> result (string -> result Host);
  _contains : Self -> Host -> M bool;
  _get_match_and_classification : Self -> Host -> M (option (Host * gset string))
}.

(** An object of the base class itself. *)
Record t : Type := { host_factory : string -> result Host }.

(** [HostList.__init__]. *)
Definition __init__ (host_factory : string -> result Host) : t :=
  {| host_factory := host_factory |}.

#[global] Instance base : Service t := {
  _host_factory self := Ok (host_factory self);
  _contains _ _ := raise NotImplementedError;
  _get_match_and_classification _ _ := raise NotImplementedError
}.

Context {Self : Type} {service : Service Self}.

(** The [try] statement that opens [__contains__] and [lookup]:
    [Some host_object] when the factory returns, [None] when the [except
    InvalidHostError] clause is taken. *)
Definition try_host_factory (self : Self) (host_value : string) : M (option Host) :=
  try_except
    (factory <- lift (_host_factory self) ;
     host_object <- lift (factory host_value) ;
     ret (Some host_object))
    (fun e => match e with InvalidHostError => Some (ret None) | _ => None end).

Definition __contains__ (self : Self) : string -> M bool :=
  accepts_valid_host (fun host_value =>
    created <- try_host_factory self host_value ;
    match created with
    | None => ret false
    | Some host_object => _contains self host_object
    end).

Definition lookup (self : Self) : string -> M (option (AddressListItem Self)) :=
  accepts_valid_host (fun host_value =>
    created <- try_host_factory self host_value ;
    match created with
    | None => ret None
    | Some host_object =>
        found <- _get_match_and_classification self host_object ;
        match found with
        | Some (host_item, classification) =>
            ret (Some (Build_AddressListItem (to_unicode host_item) self classification))
        | None => ret None
        end
    end).

Definition any_match (self : Self) : list string -> M bool :=
  accepts_valid_urls (fun urls =>
    Py.any (Py.gen_for urls (fun u =>
      listed <- __contains__ self (urlparse_hostname u) ;
      ret (Some listed)))).

Definition lookup_matching (self : Self)
  : list string -> M (Gen (AddressListItem Self)) :=
  accepts_valid_urls (fun urls =>
    ret (Py.gen_for urls (fun u => lookup self (urlparse_hostname u)))).

Definition filter_matching (self : Self) : list string -> M (Gen string) :=
  accepts_valid_urls (fun urls =>
    let is_match u := __contains__ self (urlparse_hostname u) in
    ret (Py.gen_for urls (fun u =>
      matched <- is_match u ;
      ret (if matched then Some u else None)))).

End HostList.

Arguments Service : clear implicits.
Arguments t : clear implicits.

End HostList.

(** ** class DNSBL *)

Module DNSBL.
Section DNSBL.
Context {Host : Type} {structures : Structures Host} {env : Environment}.

Record t : Type := {
  _identifier : string;
  _query_suffix : string;
  _classification_map : Z -> result (gset string);
  _host_factory : string -> result Host
}.

Definition __init__ (identifier query_suffix : string)
  (classification_map : Z -> result (gset string))
  (host_factory : string -> result Host) : t :=
  {| _identifier := identifier;
     _query_suffix := query_suffix;
     _classification_map := classification_map;
     _host_factory := host_factory |}.

(** [host_to_query.derelativize(origin)] on the texts of the names. *)
Definition derelativize (relative origin : string) : string :=
  relative +:+ "." +:+ origin.

Definition _query (self : t) (host_object : Host) : M (option (list string)) :=
  let host_to_query := relative_domain host_object in
  let query_name := derelativize host_to_query (_query_suffix self) in
  try_except
    (answer <- query query_name ; ret (Some answer))
    (fun e => match e with NXDOMAIN => Some (ret None) | _ => None end).

Definition __str__ (self : t) : string := _identifier self.

(** [bool(answer)]: an answer is true when it has records. *)
Definition _contains (self : t) (host_object : Host) : M bool :=
  answer <- _query self host_object ;
  ret (match answer with
       | None | Some [] => false
       | Some (_ :: _) => true
       end).

(** [self._classification_map[int(last_octet)]] for the record [a] of an
    answer, whose text is [a]. *)
Definition decode (self : t) (a : string) : result (gset string) :=
  let last_octet := List.last (Py.split "." a) "" in
  code <~ Py.int last_octet ;
  _classification_map self code.

(** The loop [for a in answer] of [_get_match_and_classification]. *)
Fixpoint classify (self : t) (answer : list string) (classification : gset string)
  : result (gset string) :=
  match answer with
  | [] => Ok classification
  | a :: rest =>
      labels <~ decode self a ;
      classify self rest (classification ∪ labels)
  end.

Definition _get_match_and_classification (self : t) (host_object : Host)
  : M (option (Host * gset string)) :=
  answer <- _query self host_object ;
  match answer with
  | None => ret None
  | Some answer =>
      try_except
        (classification <- lift (classify self answer ∅) ;
         ret (Some (host_object, classification)))
        (fun e =>
           match e with
           | UnknownCodeError str_e =>
               let msg := str_e +:+ Py.newline +:+ "Source:" +:+ __str__ self in
               Some (raise (UnknownCodeError msg))
           | _ => None
           end)
  end.

#[global] Instance service : HostList.Service Host t := {
  HostList._host_factory self := Ok (_host_factory self);
  HostList._contains := _contains;
  HostList._get_match_and_classification := _get_match_and_classification
}.

End DNSBL.

Arguments t : clear implicits.

End DNSBL.

(** ** class HpHosts *)

(** What [HpHosts] takes from the modules that it imports: [requests.get]
    and the factory [non_ipv6_host] of [structures.py]. *)
Class Imports (Host : Type) : Type := {
  get : string -> M Response;
  non_ipv6_host : string -> result Host
}.

Module HpHosts.
Section HpHosts.
Context {Host : Type} {structures : Structures Host} {env : Environment}.
Context {imports : Imports Host}.

Record t : Type := {
  app_id : string;
  _host_factory : string -> result Host
}.

Definition identifier : string := " http://www.hosts-file.net/".
Definition _NOT_LISTED : string := "Not Listed".

Definition __init__ (client_name : string) : t :=
  {| app_id := client_name; _host_factory := non_ipv6_host |}.

Definition _query (self : t) (host_object : Host) (classification : bool)
  : M string :=
  let url :=
    "http://verify.hosts-file.net/?v=" +:+ app_id self
      +:+ "&s=" +:+ to_unicode host_object in
  let url := if classification then url +:+ "&class=true" else url in
  response <- get url ;
  ret (text response).

Definition _contains (self : t) (host_object : Host) : M bool :=
  data <- _query self host_object false ;
  ret (negb (Py.contains _NOT_LISTED data)).

Definition _get_match_and_classification (self : t) (host_object : Host)
  : M (option (Host * gset string)) :=
  data <- _query self host_object true ;
  if Py.contains _NOT_LISTED data then ret None
  else
    let elements := Py.split "," data in
    let classification := list_to_set (drop 1 elements) in
    ret (Some (host_object, classification)).

#[global] Instance service : HostList.Service Host t := {
  HostList._host_factory self := Ok (_host_factory self);
  HostList._contains := _contains;
  HostList._get_match_and_classification := _get_match_and_classification
}.

End HpHosts.

Arguments t : clear implicits.

End HpHosts.

(** ** class GoogleSafeBrowsing *)

Module GoogleSafeBrowsing.
Section GoogleSafeBrowsing.
Context {env : Environment}.

Record t : Type := {
  api_key : string;
  client_name : string;
  app_version : string;
  _request_address_val : string
}.

Definition protocol_version : string := "3.1".
Definition max_urls_per_request : nat := 500.

Definition __init__ (client_name app_version api_key : string) : t :=
  {| api_key := api_key;
     client_name := client_name;
     app_version := app_version;
     _request_address_val := "" |}.

(** The property [_request_address].  It stores the address that it
    builds in [_request_address_val]; the value that it returns is the
    same on every call, so that the assignment is left out. *)
Definition _request_address (self : t) : string :=
  if decide (_request_address_val self = "") then
    "https://sb-ssl.google.com/safebrowsing/api/lookup?client="
      +:+ client_name self +:+ "&key=" +:+ api_key self
      +:+ "&appver=" +:+ app_version self +:+ "&pver=" +:+ protocol_version
  else _request_address_val self.

(** ['{}\n{}'.format(len(urls), '\n'.join(urls))]. *)
Definition request_body (urls : list string) : string :=
  pretty (length urls) +:+ Py.newline +:+ Py.join Py.newline urls.

Definition _query_once (self : t) (urls : list string) : M Response :=
  let request_body := request_body urls in
  response <- post (_request_address self) request_body ;
  try_except
    (_ <- lift (raise_for_status response) ; ret response)
    (fun e =>
       match e with
       | HTTPError =>
           Some (if (status_code response =? 401)%Z
                 then raise (UnathorizedAPIKeyError "The API key is not authorized")
                 else raise e)
       | _ => None
       end).

Definition _query (self : t) (urls : list string) : Gen (list string * Response) :=
  let urls := list_of_set urls in
  Py.gen_for (Py.range (length urls) max_urls_per_request) (fun i =>
    let chunk := Py.slice urls i (i + max_urls_per_request) in
    response <- _query_once self chunk ;
    ret (if (status_code response =? 200)%Z then Some (chunk, response) else None)).

(** The values that [chunk] takes in the loop of [_query] over the
    list [urls] without duplicates. *)
Definition chunks (urls : list string) : list (list string) :=
  map (fun i => Py.slice urls i (i + max_urls_per_request))
      (Py.range (length urls) max_urls_per_request).

Definition any_match (self : t) : list string -> M bool :=
  accepts_valid_urls (fun urls => Py.any_tuple (_query self urls)).

Definition _get_classification_per_matching (self : t) (urls : list string)
  : Gen (string * string) :=
  Py.gen_flat_map
    (fun '(url_list, response) =>
       let classification_set := splitlines (text response) in
       filter (fun '(url, _class) => _class ≠ "ok")
              (zip url_list classification_set))
    (_query self urls).

Definition lookup_matching (self : t) : list string -> M (Gen (AddressListItem t)) :=
  accepts_valid_urls (fun urls =>
    ret (Py.gen_flat_map
           (fun '(url, _class) =>
              let classification := list_to_set (Py.split "," _class) in
              [Build_AddressListItem url self classification])
           (_get_classification_per_matching self urls))).

Definition filter_matching (self : t) : list string -> M (Gen string) :=
  accepts_valid_urls (fun urls =>
    ret (Py.gen_flat_map
           (fun '(url, _) => [url])
           (_get_classification_per_matching self urls))).

End GoogleSafeBrowsing.
End GoogleSafeBrowsing.

(** ** class HostCollection *)

Module HostCollection.
Section HostCollection.
Context {Host : Type} {structures : Structures Host} {env : Environment}.

(** [hosts] lists the members of the set [self.hosts] in the order in
    which the set is iterated; [_host_factory] is [None] until
    [HostList.__init__] assigns the attribute. *)
Record t : Type := {
  identifier : string;
  classification : gset string;
  hosts : list Host;
  _host_factory : option (string -> result Host)
}.

(** [self._host_factory]. *)
Definition get_host_factory (self : t) : result (string -> result Host) :=
  match _host_factory self with
  | Some factory => Ok factory
  | None => Raise AttributeError
  end.

(** [s.remove(h)] on the members of a set. *)
Fixpoint set_remove (h : Host) (members : list Host) : list Host :=
  match members with
  | [] => []
  | m :: rest => if host_eq m h then rest else m :: set_remove h rest
  end.

(** [s.add(h)] on the members of a set. *)
Definition set_add (h : Host) (members : list Host) : list Host :=
  if existsb (fun m => host_eq m h) members then members else members ++ [h].

Definition _contains (self : t) (host_object : Host) : bool :=
  let test u := is_subdomain host_object u || host_eq host_object u in
  existsb test (hosts self).

(** The loop of [_get_match_and_classification] over [self.hosts]. *)
Fixpoint first_match (host_object : Host) (members : list Host) : option Host :=
  match members with
  | [] => None
  | h :: rest =>
      if is_subdomain host_object h || host_eq host_object h then Some h
      else first_match host_object rest
  end.

Definition _get_match_and_classification (self : t) (host_object : Host)
  : option (Host * gset string) :=
  match first_match host_object (hosts self) with
  | Some h => Some (h, classification self)
  | None => None
  end.

(** How the loop of [add] ends: by its [return], by its [break], or
    because the members are exhausted. *)
Inductive loop_end : Type :=
| Return
| Break (members : list Host)
| Exhausted.

(** The loop [for h in self.hosts] of [add]; [members] is the whole set
    and [remaining] what is left to iterate. *)
Fixpoint add_loop (host_obj : Host) (members remaining : list Host)
  : result loop_end :=
  match remaining with
  | [] => Ok Exhausted
  | h :: rest =>
      covered <~ call_is_subdomain host_obj [] ;
      if covered || host_eq host_obj h then Ok Return
      else if is_subdomain h host_obj then Ok (Break (set_remove h members))
      else add_loop host_obj members rest
  end.

Definition add (self : t) (host_value : string) : result t :=
  factory <~ get_host_factory self ;
  host_obj <~ factory host_value ;
  ended <~ add_loop host_obj (hosts self) (hosts self) ;
  let insert members :=
    {| identifier := identifier self;
       classification := classification self;
       hosts := set_add host_obj members;
       _host_factory := _host_factory self |} in
  match ended with
  | Return => Ok self
  | Break members => Ok (insert members)
  | Exhausted => Ok (insert (hosts self))
  end.

(** The loop [for host_value in hosts: self.add(host_value)]. *)
Fixpoint add_all (self : t) (host_values : list string) : result t :=
  match host_values with
  | [] => Ok self
  | host_value :: rest =>
      self' <~ add self host_value ;
      add_all self' rest
  end.

(** [HostList.__init__(self, host_factory)] on a collection. *)
Definition super__init__ (self : t) (host_factory : string -> result Host) : t :=
  {| identifier := identifier self;
     classification := classification self;
     hosts := hosts self;
     _host_factory := Some host_factory |}.

Definition __init__ (identifier : string) (classification : list string)
  (hosts : list string) : result t :=
  let self :=
    {| identifier := identifier;
       classification := list_to_set classification;
       hosts := [];
       _host_factory := None |} in
  self <~ add_all self hosts ;
  Ok (super__init__ self hostname_or_ip).

#[global] Instance service : HostList.Service Host t := {
  HostList._host_factory := get_host_factory;
  HostList._contains self host_object := ret (_contains self host_object);
  HostList._get_match_and_classification self host_object :=
    ret (_get_match_and_classification self host_object)
}.

End HostCollection.

Arguments t : clear implicits.

End HostCollection.

(** ** Hosts, validity predicates and networks for the examples *)

Module Example.

(** Modelled from the spec: [structures.py] is absent.  A host is a
    hostname, kept as the sequence of its labels, or an IP address, kept
    as its version and its binary value. *)
Inductive Host : Type :=
| Hostname (labels : list string)
| IpAddress (version : N) (address : N).

Definition is_digit (c : ascii) : bool :=
  let n := N_of_ascii c in ((48 <=? n) && (n <=? 57))%N.

Definition is_letter (c : ascii) : bool :=
  let n := N_of_ascii c in
  (((65 <=? n) && (n <=? 90)) || ((97 <=? n) && (n <=? 122)))%N.

Definition lower (c : ascii) : ascii :=
  let n := N_of_ascii c in
  if ((65 <=? n) && (n <=? 90))%N then ascii_of_N (n + 32) else c.

Fixpoint lowercase (s : string) : string :=
  match s with
  | EmptyString => EmptyString
  | String c s' => String (lower c) (lowercase s')
  end.

Fixpoint all_chars (p : ascii -> bool) (s : string) : bool :=
  match s with
  | EmptyString => true
  | String c s' => p c && all_chars p s'
  end.

Definition first_char (s : string) : option ascii :=
  match s with
  | EmptyString => None
  | String c _ => Some c
  end.

Fixpoint last_char (s : string) : option ascii :=
  match s with
  | EmptyString => None
  | String c EmptyString => Some c
  | String _ s' => last_char s'
  end.

Definition is_hyphen (c : ascii) : bool := Ascii.eqb c "-".

(** A label of a hostname: letters, digits and inner hyphens. *)
Definition valid_label (label : string) : bool :=
  match first_char label, last_char label with
  | Some a, Some z =>
      all_chars (fun c => is_letter c || is_digit c || is_hyphen c) label
      && negb (is_hyphen a) && negb (is_hyphen z)
      && (String.length label <=? 63)%nat
  | _, _ => false
  end.

(** Modelled from the spec: a hostname is "a validated DNS-style name"
    with a "canonical lowercase text form": at least two valid labels, the
    last of which is not a number. *)
Definition parse_hostname (s : string) : option Host :=
  let labels := Py.split "." (lowercase s) in
  if forallb valid_label labels
     && (2 <=? length labels)%nat
     && negb (all_chars is_digit (List.last labels ""))
  then Some (Hostname labels) else None.

Definition parse_octet (s : string) : option N :=
  if ((1 <=? String.length s) && (String.length s <=? 3))%nat then
    match Py.int_digits 0 s with
    | Some n => if (n <=? 255)%Z then Some (Z.to_N n) else None
    | None => None
    end
  else None.

(** Modelled from the spec: an IP address is "a validated IPv4 or IPv6
    address" with a "version tag".  The addresses of the examples are
    dotted IPv4 literals; IPv6 literals are not parsed here. *)
Definition parse_ip (s : string) : option Host :=
  match map parse_octet (Py.split "." s) with
  | [Some a; Some b; Some c; Some d] =>
      Some (IpAddress 4 (((a * 256 + b) * 256 + c) * 256 + d))
  | _ => None
  end.

(** Modelled from the spec: the factories "fail with InvalidHostError for
    invalid input"; the general one prefers "IP-address interpretation
    first", the restricted ones accept one kind of host only. *)
Definition example_hostname_or_ip (s : string) : result Host :=
  match parse_ip s with
  | Some ip => Ok ip
  | None =>
      match parse_hostname s with
      | Some name => Ok name
      | None => Raise InvalidHostError
      end
  end.

Definition hostname (s : string) : result Host :=
  match parse_hostname s with
  | Some name => Ok name
  | None => Raise InvalidHostError
  end.

Definition ip_address (s : string) : result Host :=
  match parse_ip s with
  | Some ip => Ok ip
  | None => Raise InvalidHostError
  end.

Fixpoint starts_with (start l : list string) : bool :=
  match start, l with
  | [], _ => true
  | _ :: _, [] => false
  | a :: start', b :: l' => String.eqb a b && starts_with start' l'
  end.

(** Modelled from the spec: "equality is structural". *)
Definition example_host_eq (a b : Host) : bool :=
  match a, b with
  | Hostname la, Hostname lb => bool_decide (la = lb)
  | IpAddress va xa, IpAddress vb xb => (va =? vb)%N && (xa =? xb)%N
  | _, _ => false
  end.

(** Modelled from the spec: "[is_subdomain(other)] holds for two
    Hostnames a, b when a's label sequence is a suffix-extension of b's
    labels; it is always false between an IpAddress and a Hostname, and
    false between differing address families", and it holds between a host
    and itself. *)
Definition example_is_subdomain (a b : Host) : bool :=
  match a, b with
  | Hostname la, Hostname lb => starts_with (rev lb) (rev la)
  | IpAddress va xa, IpAddress vb xb => (va =? vb)%N && (xa =? xb)%N
  | _, _ => false
  end.

Definition octets (address : N) : list N :=
  [(address / 16777216) mod 256; (address / 65536) mod 256;
   (address / 256) mod 256; address mod 256]%N.

Definition example_to_unicode (h : Host) : string :=
  match h with
  | Hostname labels => Py.join "." labels
  | IpAddress _ address => Py.join "." (map pretty (octets address))
  end.

(** Modelled from the spec: the reverse-lookup form of an address lists
    its octets "most-significant unit last". *)
Definition example_relative_domain (h : Host) : string :=
  match h with
  | Hostname labels => Py.join "." labels
  | IpAddress _ address => Py.join "." (map pretty (rev (octets address)))
  end.

#[global] Instance structures : Structures Host := {
  host_eq := example_host_eq;
  is_subdomain := example_is_subdomain;
  to_unicode := example_to_unicode;
  relative_domain := example_relative_domain;
  hostname_or_ip := example_hostname_or_ip
}.

(** [s] from its first character that satisfies [stop] on. *)
Fixpoint drop_until (stop : ascii -> bool) (s : string) : string :=
  match s with
  | EmptyString => EmptyString
  | String c s' => if stop c then s else drop_until stop s'
  end.

(** [s] up to its first character that satisfies [stop]. *)
Fixpoint take_until (stop : ascii -> bool) (s : string) : string :=
  match s with
  | EmptyString => EmptyString
  | String c s' => if stop c then EmptyString else String c (take_until stop s')
  end.

Definition is_one_of (chars : string) (c : ascii) : bool :=
  existsb (Ascii.eqb c) (list_ascii_of_string chars).

(** The part of a URL between the two slashes that follow the scheme and
    the path, query or fragment. *)
Definition authority (u : string) : option string :=
  match String.index 0 "://" u with
  | Some (S n) =>
      Some (take_until (is_one_of "/?#")
              (String.substring (S n + 3) (String.length u) u))
  | _ => None
  end.

(** Modelled from the spec: the host of a URL is the authority without
    its optional port, in lower case. *)
Definition example_urlparse_hostname (u : string) : string :=
  match authority u with
  | Some a => lowercase (take_until (is_one_of ":") a)
  | None => ""
  end.

Definition is_ok {A} (r : result A) : bool :=
  match r with
  | Ok _ => true
  | Raise _ => false
  end.

(** Modelled from the spec: a valid host string is one that the general
    factory accepts. *)
Definition example_is_valid_host (s : string) : bool :=
  is_ok (example_hostname_or_ip s).

(** Modelled from the spec: the URL validity predicate "must recognize
    scheme, authority (hostname, IPv4, optional port), and optional
    path/query/fragment". *)
Definition example_is_valid_url (u : string) : bool :=
  match authority u with
  | Some a =>
      example_is_valid_host (take_until (is_one_of ":") a)
      && match drop_until (is_one_of ":") a with
         | EmptyString => true
         | String _ port => all_chars is_digit port && (1 <=? String.length port)%nat
         end
  | None => false
  end.

(** An environment with the given answers of the network. *)
Definition environment
  (answers : World -> string -> result (list string))
  (responses : World -> string -> string -> result Response) : Environment :=
  {| is_valid_host := example_is_valid_host;
     is_valid_url := example_is_valid_url;
     urlparse_hostname := example_urlparse_hostname;
     splitlines := Py.split (ascii_of_nat 10);
     list_of_set := remove_dups;
     query_answer := answers;
     post_response := responses |}.

(** A network on which no name is listed and every request is answered
    with [204 No Content]. *)
Definition quiet : Environment :=
  environment (fun _ _ => Raise NXDOMAIN)
              (fun _ _ _ => Ok {| status_code := 204; text := "" |}).

End Example.

(** ** Collections, services and networks of the examples *)

Module Fixtures.
Import Example.

Definition b_com : Host := Hostname ["b"; "com"].
Definition a_b_com : Host := Hostname ["a"; "b"; "com"].

(** [HostCollection("blacklist", ["spam"])]. *)
Definition empty_collection : result (HostCollection.t Host) :=
  HostCollection.__init__ "blacklist" ["spam"] [].

(** A collection whose only member is [b.com]. *)
Definition blacklist : HostCollection.t Host :=
  {| HostCollection.identifier := "blacklist";
     HostCollection.classification := {["spam"]};
     HostCollection.hosts := [b_com];
     HostCollection._host_factory := Some example_hostname_or_ip |}.

(** The members of a collection, if there is one. *)
Definition members (r : result (HostCollection.t Host)) : result (list Host) :=
  c <~ r ; Ok (HostCollection.hosts c).

(** A classification map with the single code 2. *)
Definition code_map (code : Z) : result (gset string) :=
  if (code =? 2)%Z then Ok {["spam"]}
  else Raise (UnknownCodeError ("The classification code was not recognized")).

(** A DNSBL that lists hostnames only. *)
Definition domain_dnsbl : DNSBL.t Host :=
  DNSBL.__init__ "test_service" "test.query.domain" code_map hostname.

(** A network whose DNS answers carry the codes 2 and 5. *)
Definition listing : Environment :=
  environment (fun _ _ => Ok ["127.0.0.2"; "127.0.0.5"])
              (fun _ _ _ => Ok {| status_code := 200; text := "ok" |}).

Definition safe_browsing : GoogleSafeBrowsing.t :=
  GoogleSafeBrowsing.__init__ "test_client" "0.1" "test_key".

(** A network that rejects the API key. *)
Definition unauthorized : Environment :=
  environment (fun _ _ => Raise NXDOMAIN)
              (fun _ _ _ => Ok {| status_code := 401; text := "" |}).

(** A network on which the first URL of every request is malware. *)
Definition reporting : Environment :=
  environment (fun _ _ => Raise NXDOMAIN)
              (fun _ _ _ => Ok {| status_code := 200; text := "malware" |}).

(** A network whose DNS answers carry the code 2. *)
Definition listed_as_spam : Environment :=
  environment (fun _ _ => Ok ["127.0.0.2"])
              (fun _ _ _ => Ok {| status_code := 204; text := "" |}).

(** An hpHosts server that lists every host in two classes. *)
Definition hp_listing : Imports Host :=
  {| get := fun _ => ret {| status_code := 200; text := "Listed,EMD,PSH" |};
     non_ipv6_host := example_hostname_or_ip |}.

End Fixtures.

(** * Properties *)

(** ** The runtime *)

Section Runtime.
Context {env : Environment}.

Lemma accepts_valid_host_valid {A} (func : string -> M A) host_value :
  is_valid_host host_value = true ->
  accepts_valid_host func host_value = func host_value.
Proof. intros Hvalid. unfold accepts_valid_host. now rewrite Hvalid. Qed.

Lemma accepts_valid_host_invalid {A} (func : string -> M A) host_value w :
  is_valid_host host_value = false ->
  accepts_valid_host func host_value w = (Raise InvalidHostError, w).
Proof. intros Hinvalid. unfold accepts_valid_host. now rewrite Hinvalid. Qed.

Lemma accepts_valid_urls_valid {A} (func : list string -> M A) urls :
  Forall (fun u => is_valid_url u = true) urls ->
  accepts_valid_urls func urls = func urls.
Proof.
  intros Hvalid. unfold accepts_valid_urls.
  replace (forallb is_valid_url urls) with true; [reflexivity|].
  symmetry. apply forallb_forall. intros u Hu.
  rewrite Forall_forall in Hvalid. apply Hvalid. now apply list_elem_of_In.
Qed.

Lemma accepts_valid_urls_invalid {A} (func : list string -> M A) urls w :
  (exists u, u ∈ urls /\ is_valid_url u = false) ->
  accepts_valid_urls func urls w = (Raise InvalidURLError, w).
Proof.
  intros (u & Hu & Hinvalid). unfold accepts_valid_urls.
  destruct (forallb is_valid_url urls) eqn:Hall; [|reflexivity].
  rewrite forallb_forall in Hall.
  apply list_elem_of_In in Hu. apply Hall in Hu. congruence.
Qed.

Lemma to_list_next {A} (g : Gen A) w :
  Py.to_list g w =
  match Py.next g w with
  | GenStop w' => (Ok [], w')
  | GenRaise e w' => (Raise e, w')
  | GenYield a rest w' =>
      match Py.to_list rest w' with
      | (Ok l, w'') => (Ok (a :: l), w'')
      | (Raise e, w'') => (Raise e, w'')
      end
  end.
Proof. now destruct g. Qed.

Lemma to_list_gen_for_nil {A B} (body : A -> M (option B)) w :
  Py.to_list (Py.gen_for [] body) w = (Ok [], w).
Proof. reflexivity. Qed.

Lemma to_list_gen_for_cons {A B} (body : A -> M (option B)) x xs w :
  Py.to_list (Py.gen_for (x :: xs) body) w =
  match body x w with
  | (Raise e, w') => (Raise e, w')
  | (Ok None, w') => Py.to_list (Py.gen_for xs body) w'
  | (Ok (Some y), w') =>
      match Py.to_list (Py.gen_for xs body) w' with
      | (Ok l, w'') => (Ok (y :: l), w'')
      | (Raise e, w'') => (Raise e, w'')
      end
  end.
Proof.
  simpl. destruct (body x w) as [[[y|]|e] w']; try reflexivity.
  now rewrite (to_list_next (Py.gen_for xs body)).
Qed.

End Runtime.

(** ** HostCollection *)

Section Collection.
Context {Host : Type} {structures : Structures Host}.

(** The call [host_obj.is_subdomain()] of [add] has no argument. *)
Lemma add_loop_members (host_obj : Host) members h rest :
  HostCollection.add_loop host_obj members (h :: rest) = Raise TypeError.
Proof. reflexivity. Qed.

Lemma add_to_empty (self : HostCollection.t Host) factory host_value host_obj :
  HostCollection._host_factory self = Some factory ->
  factory host_value = Ok host_obj ->
  HostCollection.hosts self = [] ->
  exists self',
    HostCollection.add self host_value = Ok self'
    /\ HostCollection.hosts self' = [host_obj].
Proof.
  intros Hfactory Hobj Hempty.
  unfold HostCollection.add, HostCollection.get_host_factory.
  rewrite Hfactory. simpl. rewrite Hobj. simpl. rewrite Hempty. simpl.
  eexists. split; reflexivity.
Qed.

Lemma add_to_members (self : HostCollection.t Host) factory host_value host_obj :
  HostCollection._host_factory self = Some factory ->
  factory host_value = Ok host_obj ->
  HostCollection.hosts self <> [] ->
  HostCollection.add self host_value = Raise TypeError.
Proof.
  intros Hfactory Hobj Hmembers.
  unfold HostCollection.add, HostCollection.get_host_factory.
  rewrite Hfactory. simpl. rewrite Hobj. simpl.
  destruct (HostCollection.hosts self) as [|h rest]; [congruence|reflexivity].
Qed.

(** [add] returns only when the collection is empty, and the new host is
    then the only member. *)
Lemma add_returns_only_when_empty (self self' : HostCollection.t Host) host_value :
  HostCollection.add self host_value = Ok self' ->
  HostCollection.hosts self = []
  /\ exists host_obj, HostCollection.hosts self' = [host_obj].
Proof.
  unfold HostCollection.add.
  destruct (HostCollection.get_host_factory self) as [factory|e]; [|discriminate].
  simpl. destruct (factory host_value) as [host_obj|e]; [|discriminate].
  simpl. destruct (HostCollection.hosts self) as [|h rest] eqn:Hhosts.
  - simpl. intros [= <-]. split; [reflexivity|]. now exists host_obj.
  - discriminate.
Qed.

(** The constructor raises [AttributeError] whenever it is given an
    initial host. *)
Lemma init_with_initial_host (identifier : string) classification host_value rest :
  HostCollection.__init__ identifier classification (host_value :: rest)
  = Raise AttributeError.
Proof. reflexivity. Qed.

Lemma first_match_some (host_object : Host) members m :
  HostCollection.first_match host_object members = Some m ->
  m ∈ members /\ is_subdomain host_object m || host_eq host_object m = true.
Proof.
  induction members as [|h rest IH]; simpl; [discriminate|].
  destruct (is_subdomain host_object h || host_eq host_object h) eqn:Htest.
  - intros [= <-]. split; [left|assumption].
  - intros Hrest. destruct (IH Hrest). split; [now right|assumption].
Qed.

Lemma first_match_none (host_object : Host) members :
  HostCollection.first_match host_object members = None <->
  forall m, m ∈ members ->
    is_subdomain host_object m || host_eq host_object m = false.
Proof.
  induction members as [|h rest IH]; simpl.
  - split; [|reflexivity]. intros _ m Hm. inversion Hm.
  - destruct (is_subdomain host_object h || host_eq host_object h) eqn:Htest.
    + split; [discriminate|]. intros Hall.
      specialize (Hall h (list_elem_of_here _ _)). congruence.
    + rewrite IH. split.
      * intros Hrest m Hm. inversion Hm; subst; auto.
      * intros Hall m Hm. apply Hall. now right.
Qed.

Lemma contains_exists (self : HostCollection.t Host) host_object :
  HostCollection._contains self host_object = true <->
  exists m, m ∈ HostCollection.hosts self
    /\ is_subdomain host_object m || host_eq host_object m = true.
Proof.
  unfold HostCollection._contains. rewrite existsb_exists.
  split; intros (m & Hm & Htest); exists m; split;
    first [now apply list_elem_of_In | assumption].
Qed.

End Collection.

Section CollectionService.
Context {Host : Type} {structures : Structures Host} {env : Environment}.

Lemma try_host_factory_ok {Self} {service : HostList.Service Host Self}
  (self : Self) factory host_value host_object w :
  HostList._host_factory self = Ok factory ->
  factory host_value = Ok host_object ->
  HostList.try_host_factory self host_value w = (Ok (Some host_object), w).
Proof.
  intros Hfactory Hobj.
  unfold HostList.try_host_factory, try_except, bind, lift, ret.
  now rewrite Hfactory, Hobj.
Qed.

Lemma try_host_factory_rejected {Self} {service : HostList.Service Host Self}
  (self : Self) factory host_value w :
  HostList._host_factory self = Ok factory ->
  factory host_value = Raise InvalidHostError ->
  HostList.try_host_factory self host_value w = (Ok None, w).
Proof.
  intros Hfactory Hobj.
  unfold HostList.try_host_factory, try_except, bind, lift, ret.
  now rewrite Hfactory, Hobj.
Qed.

Lemma collection_contains (self : HostCollection.t Host) factory host_value host_object w :
  is_valid_host host_value = true ->
  HostCollection._host_factory self = Some factory ->
  factory host_value = Ok host_object ->
  HostList.__contains__ self host_value w
  = (Ok (HostCollection._contains self host_object), w).
Proof.
  intros Hvalid Hfactory Hobj.
  unfold HostList.__contains__. rewrite accepts_valid_host_valid by assumption.
  unfold bind. erewrite try_host_factory_ok; [reflexivity| |eassumption].
  simpl. unfold HostCollection.get_host_factory. now rewrite Hfactory.
Qed.

Lemma collection_lookup (self : HostCollection.t Host) factory host_value host_object w :
  is_valid_host host_value = true ->
  HostCollection._host_factory self = Some factory ->
  factory host_value = Ok host_object ->
  HostList.lookup self host_value w
  = (Ok match HostCollection.first_match host_object (HostCollection.hosts self) with
        | Some m =>
            Some (Build_AddressListItem (to_unicode m) self
                    (HostCollection.classification self))
        | None => None
        end, w).
Proof.
  intros Hvalid Hfactory Hobj.
  unfold HostList.lookup. rewrite accepts_valid_host_valid by assumption.
  unfold bind. erewrite try_host_factory_ok; [| |eassumption].
  - simpl. unfold HostCollection._get_match_and_classification, ret.
    now destruct (HostCollection.first_match _ _).
  - simpl. unfold HostCollection.get_host_factory. now rewrite Hfactory.
Qed.

(** C4.  In a host collection a query host matches a member when it is a
    subdomain of the member or equal to it.  For a valid host string that
    the factory of the collection turns into [host_object]: [_contains]
    holds exactly when some member matches, and it is what [__contains__]
    returns; when some member matches, [_get_match_and_classification]
    returns a matching member with the classification of the collection and
    [lookup] returns the item made of the text of that member, the
    collection and that classification; when no member matches, they return
    [None]. *)
Theorem collection_match_and_lookup
  (self : HostCollection.t Host) factory host_value host_object w :
  is_valid_host host_value = true ->
  HostCollection._host_factory self = Some factory ->
  factory host_value = Ok host_object ->
  let matches m := is_subdomain host_object m || host_eq host_object m in
  let found := exists m, m ∈ HostCollection.hosts self /\ matches m = true in
  (HostCollection._contains self host_object = true <-> found)
  /\ HostList.__contains__ self host_value w
     = (Ok (HostCollection._contains self host_object), w)
  /\ (found ->
      exists m,
        m ∈ HostCollection.hosts self /\ matches m = true
        /\ HostCollection._get_match_and_classification self host_object
           = Some (m, HostCollection.classification self)
        /\ HostList.lookup self host_value w
           = (Ok (Some (Build_AddressListItem (to_unicode m) self
                          (HostCollection.classification self))), w))
  /\ ((forall m, m ∈ HostCollection.hosts self -> matches m = false) ->
      HostCollection._get_match_and_classification self host_object = None
      /\ HostList.lookup self host_value w = (Ok None, w)).
Proof.
  intros Hvalid Hfactory Hobj matches found.
  split; [apply contains_exists|].
  split; [now apply collection_contains with factory|].
  rewrite (collection_lookup self factory host_value host_object w) by assumption.
  unfold HostCollection._get_match_and_classification.
  split.
  - intros (m & Hm & Htest).
    destruct (HostCollection.first_match host_object (HostCollection.hosts self))
      as [m'|] eqn:Hfirst.
    + exists m'. destruct (first_match_some _ _ _ Hfirst) as [Hm' Htest'].
      repeat split; assumption.
    + rewrite first_match_none in Hfirst.
      specialize (Hfirst m Hm). unfold matches in Htest. congruence.
  - intros Hnone. apply first_match_none in Hnone. now rewrite Hnone.
Qed.

End CollectionService.

(** A query for [a.b.com] in a collection that holds [b.com]. *)
Lemma collection_match_and_lookup_witness :
  let self := Fixtures.blacklist in
  HostList.lookup (env := Example.quiet) self "a.b.com" []
  = (Ok (Some (Build_AddressListItem "b.com" self {["spam"]})), []).
Proof.
  intros self.
  destruct (collection_match_and_lookup (env := Example.quiet)
              self Example.example_hostname_or_ip "a.b.com" Fixtures.a_b_com [])
    as (_ & _ & Hfound & _); [reflexivity..|].
  destruct Hfound as (m & Hm & _ & _ & Hlookup).
  - exists Fixtures.b_com. split; [left|reflexivity].
  - apply list_elem_of_In in Hm. destruct Hm as [<-|[]]. exact Hlookup.
Defined.

(** C1 (code bug).  Adding [b.com] to an empty collection succeeds; adding
    [a.b.com], or [b.com] again, to the result raises [TypeError] at the
    call [host_obj.is_subdomain()], where the claim has the call return with
    the member set still [{b.com}]. *)
Theorem add_covered_host_raises :
  let first := c <~ Fixtures.empty_collection ; HostCollection.add c "b.com" in
  Fixtures.members first = Ok [Fixtures.b_com]
  /\ Fixtures.members (c <~ first ; HostCollection.add c "a.b.com") = Raise TypeError
  /\ Fixtures.members (c <~ first ; HostCollection.add c "b.com") = Raise TypeError.
Proof. repeat split. Qed.

(** C2 (code bug).  Adding [a.b.com] and then [b.com] raises [TypeError]
    at the call [host_obj.is_subdomain()], where the claim has [b.com]
    replace [a.b.com]. *)
Theorem add_superdomain_raises :
  let first := c <~ Fixtures.empty_collection ; HostCollection.add c "a.b.com" in
  Fixtures.members first = Ok [Fixtures.a_b_com]
  /\ Fixtures.members (c <~ first ; HostCollection.add c "b.com") = Raise TypeError.
Proof. repeat split. Qed.

(** C3 (code bug).  The constructor adds the initial hosts before
    [HostList.__init__] assigns [_host_factory]: with an initial host it
    raises [AttributeError], where building the collection empty and adding
    the host gives the member set [{b.com}]. *)
Theorem init_with_hosts_raises :
  Fixtures.members (HostCollection.__init__ "blacklist" ["spam"] ["b.com"])
  = Raise AttributeError
  /\ Fixtures.members
       (c <~ HostCollection.__init__ "blacklist" ["spam"] [] ;
        HostCollection.add c "b.com")
     = Ok [Fixtures.b_com].
Proof. repeat split. Qed.

(** ** HostList *)

Section Services.
Context {Host : Type} {structures : Structures Host} {env : Environment}.
Context {Self : Type} {service : HostList.Service Host Self}.

(** C5, as amended.  For a host string that passes the validity check of
    [accepts_valid_host] and that the factory of the service rejects with
    [InvalidHostError], [__contains__] returns [False] and makes no
    request. *)
Theorem contains_rejected_host (self : Self) factory host_value w :
  is_valid_host host_value = true ->
  HostList._host_factory self = Ok factory ->
  factory host_value = Raise InvalidHostError ->
  HostList.__contains__ self host_value w = (Ok false, w).
Proof.
  intros Hvalid Hfactory Hrejected.
  unfold HostList.__contains__. rewrite accepts_valid_host_valid by assumption.
  unfold bind. now erewrite try_host_factory_rejected by eassumption.
Qed.

(** C9.  For a host string that passes the validity check and that the
    factory of the service rejects with [InvalidHostError], [lookup]
    returns [None]; and whenever [lookup] returns an item, the factory of
    the service has accepted the host string. *)
Theorem lookup_rejected_host (self : Self) factory host_value w :
  is_valid_host host_value = true ->
  HostList._host_factory self = Ok factory ->
  factory host_value = Raise InvalidHostError ->
  HostList.lookup self host_value w = (Ok None, w)
  /\ forall other w1 w2 item,
       HostList.lookup self other w1 = (Ok (Some item), w2) ->
       exists host_object, factory other = Ok host_object.
Proof.
  intros Hvalid Hfactory Hrejected. split.
  - unfold HostList.lookup. rewrite accepts_valid_host_valid by assumption.
    unfold bind. now erewrite try_host_factory_rejected by eassumption.
  - intros other w1 w2 item.
    unfold HostList.lookup, accepts_valid_host.
    destruct (is_valid_host other); [|discriminate].
    unfold bind, HostList.try_host_factory, try_except, bind, lift, ret, raise.
    rewrite Hfactory.
    destruct (factory other) as [host_object|e]; [eauto|].
    destruct e; discriminate.
Qed.

(** C6.  When some URL of the sequence is not valid, every bulk
    operation of a host list and of the Safe Browsing client raises
    [InvalidURLError], and the history of requests is as before the call:
    no lookup has been made. *)
Theorem bulk_operations_reject_invalid_urls
  (self : Self) (client : GoogleSafeBrowsing.t) urls w :
  (exists u, u ∈ urls /\ is_valid_url u = false) ->
  HostList.any_match self urls w = (Raise InvalidURLError, w)
  /\ HostList.lookup_matching self urls w = (Raise InvalidURLError, w)
  /\ HostList.filter_matching self urls w = (Raise InvalidURLError, w)
  /\ GoogleSafeBrowsing.any_match client urls w = (Raise InvalidURLError, w)
  /\ GoogleSafeBrowsing.lookup_matching client urls w = (Raise InvalidURLError, w)
  /\ GoogleSafeBrowsing.filter_matching client urls w = (Raise InvalidURLError, w).
Proof.
  intros Hinvalid.
  repeat split; now apply accepts_valid_urls_invalid.
Qed.

End Services.

(** C5, counterexample.  The factory of the collection rejects ["-e"]
    with [InvalidHostError], and the membership test raises
    [InvalidHostError] for it: the string is not a valid host. *)
Lemma contains_invalid_host_raises :
  Example.example_hostname_or_ip "-e" = Raise InvalidHostError
  /\ HostList._host_factory Fixtures.blacklist = Ok Example.example_hostname_or_ip
  /\ HostList.__contains__ (env := Example.quiet) Fixtures.blacklist "-e" []
     = (Raise InvalidHostError, []).
Proof. repeat split. Qed.

(** The address [127.0.0.1] is a valid host that a DNSBL of hostnames
    does not accept. *)
Lemma contains_rejected_host_witness :
  HostList.__contains__ (env := Example.quiet)
    (service := DNSBL.service (env := Example.quiet))
    Fixtures.domain_dnsbl "127.0.0.1" []
  = (Ok false, []).
Proof.
  apply (contains_rejected_host (env := Example.quiet)
           (service := DNSBL.service (env := Example.quiet))
           Fixtures.domain_dnsbl Example.hostname "127.0.0.1" []);
    reflexivity.
Defined.

Lemma lookup_rejected_host_witness :
  HostList.lookup (env := Example.quiet)
    (service := DNSBL.service (env := Example.quiet))
    Fixtures.domain_dnsbl "127.0.0.1" []
  = (Ok None, []).
Proof.
  apply (lookup_rejected_host (env := Example.quiet)
           (service := DNSBL.service (env := Example.quiet))
           Fixtures.domain_dnsbl Example.hostname "127.0.0.1" []);
    reflexivity.
Defined.

(** The second of three URLs has a host that starts with a hyphen. *)
Lemma bulk_operations_reject_invalid_urls_witness :
  let urls := ["http://a.b.com"; "http://-xyz.com"; "http://c.com"] in
  HostList.filter_matching (env := Fixtures.listing) Fixtures.blacklist urls []
  = (Raise InvalidURLError, [])
  /\ GoogleSafeBrowsing.any_match (env := Fixtures.listing) Fixtures.safe_browsing urls []
     = (Raise InvalidURLError, []).
Proof.
  intros urls.
  destruct (bulk_operations_reject_invalid_urls (env := Fixtures.listing)
              Fixtures.blacklist Fixtures.safe_browsing urls [])
    as (_ & _ & Hfilter & Hany & _).
  - exists "http://-xyz.com". split; [|reflexivity].
    apply list_elem_of_In. right. now left.
  - split; assumption.
Defined.

(** ** Filtering URLs *)

Section Filtering.
Context {env : Environment}.

Lemma to_list_filter {A} (test : A -> M bool) (keep : A -> bool) xs w :
  (forall x w', x ∈ xs -> exists w'', test x w' = (Ok (keep x), w'')) ->
  exists w',
    Py.to_list
      (Py.gen_for xs (fun x =>
         matched <- test x ; ret (if matched then Some x else None))) w
    = (Ok (List.filter keep xs), w').
Proof.
  revert w. induction xs as [|x xs IH]; intros w Htest.
  - exists w. reflexivity.
  - rewrite to_list_gen_for_cons. unfold bind at 1.
    destruct (Htest x w (list_elem_of_here _ _)) as [w1 ->].
    destruct (IH w1) as [w2 Hrest].
    { intros y w' Hy. apply Htest. now right. }
    exists w2. unfold ret at 1. rewrite Hrest. simpl.
    now destruct (keep x).
Qed.

Context {Host : Type} {structures : Structures Host}.
Context {Self : Type} {service : HostList.Service Host Self}.

(** C7.  For valid URLs whose hosts the service answers for, [listed]
    telling which hosts it lists, [filter_matching] returns a generator
    without making a request, and the generator yields the URLs whose host
    is listed, in the order of the input. *)
Theorem filter_matching_keeps_listed_urls
  (self : Self) (listed : string -> bool) urls w :
  Forall (fun u => is_valid_url u = true) urls ->
  (forall u w', u ∈ urls ->
     exists w'',
       HostList.__contains__ self (urlparse_hostname u) w'
       = (Ok (listed (urlparse_hostname u)), w'')) ->
  exists matching w',
    HostList.filter_matching self urls w = (Ok matching, w)
    /\ Py.to_list matching w
       = (Ok (List.filter (fun u => listed (urlparse_hostname u)) urls), w').
Proof.
  intros Hvalid Hlisted.
  unfold HostList.filter_matching.
  rewrite accepts_valid_urls_valid by assumption.
  destruct (to_list_filter
              (fun u => HostList.__contains__ self (urlparse_hostname u))
              (fun u => listed (urlparse_hostname u)) urls w Hlisted)
    as [w' Hlist].
  eexists. exists w'. split; [reflexivity|exact Hlist].
Qed.

End Filtering.

(** Three URLs filtered by a collection that holds [b.com]. *)
Lemma filter_matching_keeps_listed_urls_witness :
  let urls := ["http://a.b.com/x"; "http://c.com"; "http://B.com:80"] in
  exists matching w',
    HostList.filter_matching (env := Example.quiet) Fixtures.blacklist urls []
    = (Ok matching, [])
    /\ Py.to_list matching [] = (Ok ["http://a.b.com/x"; "http://B.com:80"], w').
Proof.
  intros urls.
  destruct (filter_matching_keeps_listed_urls (env := Example.quiet)
              Fixtures.blacklist
              (fun h => match Example.example_hostname_or_ip h with
                        | Ok q => HostCollection._contains Fixtures.blacklist q
                        | Raise _ => false
                        end) urls [])
    as (matching & w' & Hcall & Hlist).
  - repeat constructor.
  - intros u w' Hu. exists w'.
    apply list_elem_of_In in Hu.
    destruct Hu as [<-|[<-|[<-|[]]]]; reflexivity.
  - exists matching, w'. split; [exact Hcall|exact Hlist].
Defined.

(** ** DNSBL *)

Section Blacklists.
Context {Host : Type} {structures : Structures Host} {env : Environment}.

Lemma classify_raises (self : DNSBL.t Host) before a after e :
  Forall (fun b => exists labels, DNSBL.decode self b = Ok labels) before ->
  DNSBL.decode self a = Raise e ->
  forall classification,
    DNSBL.classify self (before ++ a :: after) classification = Raise e.
Proof.
  intros Hbefore Hraise.
  induction Hbefore as [|b before [labels Hb] _ IH]; intros classification; simpl.
  - now rewrite Hraise.
  - rewrite Hb. simpl. apply IH.
Qed.

Lemma query_listed (self : DNSBL.t Host) host_object answer w :
  let query_name :=
    DNSBL.derelativize (relative_domain host_object) (DNSBL._query_suffix self) in
  query_answer w query_name = Ok answer ->
  DNSBL._query self host_object w = (Ok (Some answer), w ++ [DnsQuery query_name]).
Proof.
  intros query_name Hanswer.
  unfold DNSBL._query, try_except, bind, query, ret.
  fold query_name. now rewrite Hanswer.
Qed.

(** C8.  When the answer of the DNS to the query for a host has a record
    whose code the classification map does not know, the codes of the
    records before it being known, [_get_match_and_classification] raises
    [UnknownCodeError] with the message of the map followed by a line that
    names the service, and so does [lookup] for a host string that stands
    for that host. *)
Theorem unknown_code_is_reraised_with_source
  (self : DNSBL.t Host) host_value host_object before a after str_e w :
  is_valid_host host_value = true ->
  DNSBL._host_factory self host_value = Ok host_object ->
  let query_name :=
    DNSBL.derelativize (relative_domain host_object) (DNSBL._query_suffix self) in
  query_answer w query_name = Ok (before ++ a :: after) ->
  Forall (fun b => exists labels, DNSBL.decode self b = Ok labels) before ->
  DNSBL.decode self a = Raise (UnknownCodeError str_e) ->
  let msg := str_e +:+ Py.newline +:+ "Source:" +:+ DNSBL._identifier self in
  DNSBL._get_match_and_classification self host_object w
  = (Raise (UnknownCodeError msg), w ++ [DnsQuery query_name])
  /\ HostList.lookup self host_value w
     = (Raise (UnknownCodeError msg), w ++ [DnsQuery query_name]).
Proof.
  intros Hvalid Hobj query_name Hanswer Hbefore Hunknown msg.
  assert (DNSBL._get_match_and_classification self host_object w
          = (Raise (UnknownCodeError msg), w ++ [DnsQuery query_name])) as Hmatch.
  { unfold DNSBL._get_match_and_classification, bind.
    rewrite (query_listed self host_object _ w Hanswer).
    unfold try_except, bind, lift.
    now rewrite (classify_raises self before a after _ Hbefore Hunknown). }
  split; [exact Hmatch|].
  unfold HostList.lookup. rewrite accepts_valid_host_valid by assumption.
  unfold bind.
  erewrite try_host_factory_ok; [|reflexivity|exact Hobj].
  simpl. now rewrite Hmatch.
Qed.

End Blacklists.

(** A host whose answer carries the known code 2 and the unknown code 5. *)
Lemma unknown_code_is_reraised_with_source_witness :
  HostList.lookup (env := Fixtures.listing)
    (service := DNSBL.service (env := Fixtures.listing))
    Fixtures.domain_dnsbl "t1.pl" []
  = (Raise (UnknownCodeError
              ("The classification code was not recognized" +:+ Py.newline
                 +:+ "Source:test_service")),
     [DnsQuery "t1.pl.test.query.domain"]).
Proof.
  destruct (unknown_code_is_reraised_with_source (env := Fixtures.listing)
              Fixtures.domain_dnsbl "t1.pl" (Example.Hostname ["t1"; "pl"])
              ["127.0.0.2"] "127.0.0.5" []
              "The classification code was not recognized" [])
    as [_ Hlookup].
  - reflexivity.
  - reflexivity.
  - reflexivity.
  - constructor; [|constructor]. now exists {["spam"]}.
  - reflexivity.
  - exact Hlookup.
Defined.

(** ** GoogleSafeBrowsing *)

Section Chunks.
Context {A : Type}.

Lemma slice_take_drop (l : list A) i size :
  Py.slice l i (i + size) = take size (drop i l).
Proof. unfold Py.slice. f_equal. lia. Qed.

Lemma range_covers stop step :
  0 < step -> stop <= (stop + step - 1) / step * step.
Proof.
  intros Hstep.
  pose proof (Nat.div_mod_eq (stop + step - 1) step) as Hdiv.
  pose proof (Nat.mod_upper_bound (stop + step - 1) step) as Hmod.
  rewrite (Nat.mul_comm _ step). lia.
Qed.

Lemma range_below stop step i :
  0 < step -> i ∈ Py.range stop step -> i < stop.
Proof.
  intros Hstep Hi. unfold Py.range in Hi.
  apply list_elem_of_In, in_map_iff in Hi. destruct Hi as (k & <- & Hk).
  apply in_seq in Hk.
  pose proof (Nat.div_mod_eq (stop + step - 1) step) as Hdiv.
  assert ((k + 1) * step <= (stop + step - 1) / step * step) as Hle
    by (apply Nat.mul_le_mono_r; lia).
  rewrite (Nat.mul_comm _ step) in Hle. lia.
Qed.

Lemma concat_slices (l : list A) size count :
  length l <= count * size ->
  concat (map (fun k => take size (drop (k * size) l)) (seq 0 count)) = l.
Proof.
  revert l. induction count as [|count IH]; intros l Hlen.
  - destruct l; [reflexivity|simpl in Hlen; lia].
  - simpl. rewrite <- seq_shift, map_map.
    transitivity (take size l ++ drop size l); [|apply take_drop].
    f_equal. rewrite <- (IH (drop size l)) by (rewrite length_drop; lia).
    f_equal. apply map_ext. intros k. now rewrite drop_drop.
Qed.

Lemma concat_range_slices (l : list A) size :
  0 < size ->
  concat (map (fun i => Py.slice l i (i + size)) (Py.range (length l) size)) = l.
Proof.
  intros Hsize. unfold Py.range. rewrite map_map.
  transitivity
    (concat (map (fun k => take size (drop (k * size) l))
               (seq 0 ((length l + size - 1) / size)))).
  - f_equal. apply map_ext. intros k. apply slice_take_drop.
  - apply concat_slices. now apply range_covers.
Qed.

Lemma range_slices_bounds (l : list A) size :
  0 < size ->
  Forall (fun chunk => 0 < length chunk <= size)
    (map (fun i => Py.slice l i (i + size)) (Py.range (length l) size)).
Proof.
  intros Hsize. apply Forall_map, Forall_forall. intros i Hi.
  apply (range_below _ _ _ Hsize) in Hi. simpl.
  rewrite slice_take_drop, length_take, length_drop. lia.
Qed.

End Chunks.

Section SafeBrowsing.
Context {env : Environment}.

Lemma query_once_accepted (self : GoogleSafeBrowsing.t) urls w response :
  let address := GoogleSafeBrowsing._request_address self in
  let body := GoogleSafeBrowsing.request_body urls in
  post_response w address body = Ok response ->
  raise_for_status response = Ok tt ->
  GoogleSafeBrowsing._query_once self urls w
  = (Ok response, w ++ [HttpPost address body]).
Proof.
  intros address body Hresponse Hstatus.
  unfold GoogleSafeBrowsing._query_once, bind, post, try_except, lift, ret.
  fold address body. now rewrite Hresponse, Hstatus.
Qed.

Lemma query_loop (self : GoogleSafeBrowsing.t) (urls : list string) indices w :
  (forall w' url body,
     exists response,
       post_response w' url body = Ok response
       /\ raise_for_status response = Ok tt) ->
  let address := GoogleSafeBrowsing._request_address self in
  let chunk i := Py.slice urls i (i + GoogleSafeBrowsing.max_urls_per_request) in
  let request c := HttpPost address (GoogleSafeBrowsing.request_body c) in
  exists responses,
    Forall2
      (fun c response =>
         exists w',
           post_response w' address (GoogleSafeBrowsing.request_body c)
           = Ok response)
      (map chunk indices) responses
    /\ Py.to_list
         (Py.gen_for indices (fun i =>
            response <- GoogleSafeBrowsing._query_once self (chunk i) ;
            ret (if (status_code response =? 200)%Z
                 then Some (chunk i, response) else None))) w
       = (Ok (List.filter (fun item => (status_code item.2 =? 200)%Z)
                (zip (map chunk indices) responses)),
          w ++ map request (map chunk indices)).
Proof.
  intros Hnetwork address chunk request. revert w.
  induction indices as [|i indices IH]; intros w.
  - exists []. split; [constructor|]. simpl. now rewrite app_nil_r.
  - destruct (Hnetwork w address (GoogleSafeBrowsing.request_body (chunk i)))
      as (response & Hresponse & Hstatus).
    destruct (IH (w ++ [request (chunk i)])) as (responses & Hall & Hrest).
    exists (response :: responses). split.
    + constructor; [now exists w|exact Hall].
    + rewrite to_list_gen_for_cons. unfold bind at 1.
      rewrite (query_once_accepted self (chunk i) w response Hresponse Hstatus).
      unfold ret at 1. fold address. fold (request (chunk i)).
      rewrite Hrest. simpl. rewrite <- app_assoc. simpl.
      now destruct (status_code response =? 200)%Z.
Qed.

(** A call of [_query_once] sends one request, whether it returns or
    raises. *)
Lemma query_once_request (self : GoogleSafeBrowsing.t) urls w :
  let address := GoogleSafeBrowsing._request_address self in
  let body := GoogleSafeBrowsing.request_body urls in
  (GoogleSafeBrowsing._query_once self urls w).2 = w ++ [HttpPost address body].
Proof.
  intros address body.
  unfold GoogleSafeBrowsing._query_once, bind, post, try_except, lift, ret, raise.
  fold address body.
  destruct (post_response w address body) as [response|e]; [|reflexivity].
  destruct (raise_for_status response) as [[]|e]; [reflexivity|].
  destruct e; try reflexivity.
  now destruct (status_code response =? 401)%Z.
Qed.

(** Whatever the network answers, the requests of [_query] are those of
    the first chunks, one for each, in order: the generator ends at the
    first request that fails. *)
Lemma query_requests_prefix (self : GoogleSafeBrowsing.t) (urls : list string)
  indices w :
  let address := GoogleSafeBrowsing._request_address self in
  let chunk i := Py.slice urls i (i + GoogleSafeBrowsing.max_urls_per_request) in
  let request c := HttpPost address (GoogleSafeBrowsing.request_body c) in
  exists count,
    (Py.to_list
       (Py.gen_for indices (fun i =>
          response <- GoogleSafeBrowsing._query_once self (chunk i) ;
          ret (if (status_code response =? 200)%Z
               then Some (chunk i, response) else None))) w).2
    = w ++ map request (take count (map chunk indices)).
Proof.
  intros address chunk request. revert w.
  induction indices as [|i indices IH]; intros w.
  - exists 0. simpl. now rewrite app_nil_r.
  - destruct (IH (w ++ [request (chunk i)])) as [count Hrest].
    rewrite to_list_gen_for_cons. unfold bind at 1.
    pose proof (query_once_request self (chunk i) w) as Honce.
    change (HttpPost _ _) with (request (chunk i)) in Honce.
    destruct (GoogleSafeBrowsing._query_once self (chunk i) w)
      as [[response|e] w1].
    + simpl in Honce. rewrite Honce. exists (S count). unfold ret at 1.
      destruct (status_code response =? 200)%Z.
      * destruct (Py.to_list _ (w ++ [request (chunk i)])) as [[l|e] w2];
          simpl in *; rewrite Hrest, <- app_assoc; reflexivity.
      * rewrite Hrest, <- app_assoc. reflexivity.
    + simpl in Honce. rewrite Honce. exists 1. now destruct indices.
Qed.

(** C10.  Let the list of a set of URLs be a permutation of the URLs
    without duplicates, and let every POST request be answered with a
    status that [raise_for_status] accepts.  The chunks of [_query] are
    consecutive slices of the list of the set of its URLs: together they
    hold every URL of the input once, and each of them holds between 1 and
    [max_urls_per_request] URLs.  Consumed to its end, the generator sends
    one POST request for each chunk, in order, and yields the chunks whose
    response has status 200, each with its response. *)
Theorem query_posts_each_chunk_once (self : GoogleSafeBrowsing.t) urls w :
  list_of_set urls ≡ₚ remove_dups urls ->
  (forall w' url body,
     exists response,
       post_response w' url body = Ok response
       /\ raise_for_status response = Ok tt) ->
  let address := GoogleSafeBrowsing._request_address self in
  let chunks := GoogleSafeBrowsing.chunks (list_of_set urls) in
  let request c := HttpPost address (GoogleSafeBrowsing.request_body c) in
  concat chunks = list_of_set urls
  /\ NoDup (concat chunks)
  /\ (forall u, u ∈ concat chunks <-> u ∈ urls)
  /\ Forall
       (fun c => 0 < length c <= GoogleSafeBrowsing.max_urls_per_request) chunks
  /\ exists responses,
       Forall2
         (fun c response =>
            exists w',
              post_response w' address (GoogleSafeBrowsing.request_body c)
              = Ok response)
         chunks responses
       /\ Py.to_list (GoogleSafeBrowsing._query self urls) w
          = (Ok (List.filter (fun item => (status_code item.2 =? 200)%Z)
                   (zip chunks responses)),
             w ++ map request chunks).
Proof.
  intros Hset Hnetwork address chunks request.
  assert (0 < GoogleSafeBrowsing.max_urls_per_request) as Hsize
    by (unfold GoogleSafeBrowsing.max_urls_per_request; lia).
  assert (concat chunks = list_of_set urls) as Hconcat
    by (apply concat_range_slices, Hsize).
  split; [exact Hconcat|]. rewrite Hconcat.
  split; [rewrite Hset; apply NoDup_remove_dups|].
  split; [intros u; rewrite Hset; apply elem_of_remove_dups|].
  split; [apply range_slices_bounds, Hsize|].
  apply (query_loop self (list_of_set urls) _ w Hnetwork).
Qed.

End SafeBrowsing.

(** Three URLs, one of them twice, on a network that answers every
    request with status 200. *)
Lemma query_posts_each_chunk_once_witness :
  let urls := ["http://a.com"; "http://b.com"; "http://a.com"] in
  let chunk := ["http://b.com"; "http://a.com"] in
  exists response,
    Py.to_list
      (GoogleSafeBrowsing._query (env := Fixtures.listing)
         Fixtures.safe_browsing urls) []
    = (Ok [(chunk, response)],
       [HttpPost (GoogleSafeBrowsing._request_address Fixtures.safe_browsing)
          (GoogleSafeBrowsing.request_body chunk)]).
Proof.
  intros urls chunk.
  destruct (query_posts_each_chunk_once (env := Fixtures.listing)
              Fixtures.safe_browsing urls [])
    as (_ & _ & _ & _ & responses & Hresponses & Hlist).
  - reflexivity.
  - intros w' url body. eexists. split; reflexivity.
  - exists {| status_code := 200; text := "ok" |}.
    rewrite Hlist.
    change (GoogleSafeBrowsing.chunks (list_of_set urls)) with [chunk]
      in Hresponses |- *.
    inversion Hresponses as [|c response cs rs [w' Hresponse] Hrest]; subst.
    inversion Hrest; subst. injection Hresponse as <-. reflexivity.
Defined.

(** * Further properties *)

(** ** Requests of the Safe Browsing client *)

Section SafeBrowsingRequests.
Context {env : Environment}.

(** X1.  [_query_once] sends one POST request with the body made of the
    number of URLs and the URLs.  A failure of the transport is raised as it
    is; a response with status 401 raises [UnathorizedAPIKeyError]; a
    response with another status from 400 to 599 raises [HTTPError]; any
    other response is returned. *)
Theorem query_once_by_status (self : GoogleSafeBrowsing.t) urls w :
  let address := GoogleSafeBrowsing._request_address self in
  let body := GoogleSafeBrowsing.request_body urls in
  GoogleSafeBrowsing._query_once self urls w
  = (match post_response w address body with
     | Raise e => Raise e
     | Ok response =>
         if (status_code response =? 401)%Z
         then Raise (UnathorizedAPIKeyError "The API key is not authorized")
         else if ((400 <=? status_code response)
                  && (status_code response <? 600))%Z
              then Raise HTTPError
              else Ok response
     end,
     w ++ [HttpPost address body]).
Proof.
  intros address body.
  unfold GoogleSafeBrowsing._query_once, bind, post, try_except, lift, ret, raise.
  fold address body.
  destruct (post_response w address body) as [response|e]; [|reflexivity].
  unfold raise_for_status.
  destruct (status_code response =? 401)%Z eqn:Hcode.
  - apply Z.eqb_eq in Hcode. now rewrite Hcode.
  - now destruct ((400 <=? status_code response)
                  && (status_code response <? 600))%Z.
Qed.

Lemma next_gen_for_cons {A B} (body : A -> M (option B)) x xs w :
  Py.next (Py.gen_for (x :: xs) body) w =
  match body x w with
  | (Raise e, w') => GenRaise e w'
  | (Ok None, w') => Py.next (Py.gen_for xs body) w'
  | (Ok (Some y), w') => GenYield y (Py.gen_for xs body) w'
  end.
Proof. simpl. now destruct (body x w) as [[[y|]|e] w']. Qed.

Lemma next_gen_for_skipped {A B} (body : A -> M (option B)) (trace : A -> event)
  xs w :
  (forall x w', x ∈ xs -> body x w' = (Ok None, w' ++ [trace x])) ->
  Py.next (Py.gen_for xs body) w = GenStop (w ++ map trace xs).
Proof.
  revert w. induction xs as [|x xs IH]; intros w Hbody.
  - simpl. now rewrite app_nil_r.
  - rewrite next_gen_for_cons, (Hbody x w) by left.
    rewrite IH by (intros y w' Hy; apply Hbody; now right).
    simpl. now rewrite <- app_assoc.
Qed.

Lemma range_starts_at_zero stop step :
  0 < stop -> 0 < step -> exists rest, Py.range stop step = 0 :: rest.
Proof.
  intros Hstop Hstep. unfold Py.range.
  pose proof (range_covers stop step Hstep) as Hcover.
  destruct ((stop + step - 1) / step) as [|count]; [simpl in Hcover; lia|].
  simpl. eauto.
Qed.

(** X2.  When the first chunk of the URLs of the set is answered with
    status 200, [any_match] returns [True] after that one request, however
    many chunks there are. *)
Theorem any_match_stops_at_first_match (self : GoogleSafeBrowsing.t)
  urls w response :
  Forall (fun u => is_valid_url u = true) urls ->
  list_of_set urls <> [] ->
  let address := GoogleSafeBrowsing._request_address self in
  let first :=
    Py.slice (list_of_set urls) 0 GoogleSafeBrowsing.max_urls_per_request in
  let body := GoogleSafeBrowsing.request_body first in
  post_response w address body = Ok response ->
  status_code response = 200%Z ->
  GoogleSafeBrowsing.any_match self urls w
  = (Ok true, w ++ [HttpPost address body]).
Proof.
  intros Hvalid Hurls address first body Hresponse Hstatus.
  unfold GoogleSafeBrowsing.any_match.
  rewrite accepts_valid_urls_valid by assumption.
  unfold Py.any_tuple, GoogleSafeBrowsing._query.
  destruct (range_starts_at_zero (length (list_of_set urls))
              GoogleSafeBrowsing.max_urls_per_request) as [rest ->].
  { destruct (list_of_set urls); [congruence|simpl; lia]. }
  { unfold GoogleSafeBrowsing.max_urls_per_request. lia. }
  rewrite next_gen_for_cons. unfold bind at 1.
  change (Py.slice (list_of_set urls) 0 (0 + GoogleSafeBrowsing.max_urls_per_request))
    with first.
  rewrite (query_once_accepted self first w response Hresponse)
    by (unfold raise_for_status; now rewrite Hstatus).
  unfold ret at 1. now rewrite Hstatus.
Qed.

(** X3.  When every request is answered with a status that is neither an
    error nor 200, [any_match] returns [False] after one request for each
    chunk. *)
Theorem any_match_without_match (self : GoogleSafeBrowsing.t) urls w :
  Forall (fun u => is_valid_url u = true) urls ->
  (forall w' url body,
     exists response,
       post_response w' url body = Ok response
       /\ raise_for_status response = Ok tt
       /\ status_code response <> 200%Z) ->
  let address := GoogleSafeBrowsing._request_address self in
  let request c := HttpPost address (GoogleSafeBrowsing.request_body c) in
  GoogleSafeBrowsing.any_match self urls w
  = (Ok false,
     w ++ map request (GoogleSafeBrowsing.chunks (list_of_set urls))).
Proof.
  intros Hvalid Hnetwork address request.
  unfold GoogleSafeBrowsing.any_match.
  rewrite accepts_valid_urls_valid by assumption.
  unfold Py.any_tuple, GoogleSafeBrowsing._query, GoogleSafeBrowsing.chunks.
  rewrite map_map.
  erewrite (next_gen_for_skipped _
              (fun i => request (Py.slice (list_of_set urls) i
                                   (i + GoogleSafeBrowsing.max_urls_per_request))));
    [reflexivity|].
  intros i w' _. unfold bind.
  destruct (Hnetwork w' address
              (GoogleSafeBrowsing.request_body
                 (Py.slice (list_of_set urls) i
                    (i + GoogleSafeBrowsing.max_urls_per_request))))
    as (response & Hresponse & Haccepted & Hstatus).
  rewrite (query_once_accepted self _ w' response Hresponse Haccepted).
  unfold ret. apply Z.eqb_neq in Hstatus. now rewrite Hstatus.
Qed.

(** X4.  Every chunk of [_query] but the last holds
    [max_urls_per_request] URLs, and a list of at most that many URLs is
    sent as one chunk. *)
Theorem chunks_full_but_last (urls : list string) :
  let chunks := GoogleSafeBrowsing.chunks urls in
  (forall k c,
     chunks !! k = Some c -> S k < length chunks ->
     length c = GoogleSafeBrowsing.max_urls_per_request)
  /\ (urls <> [] ->
      length urls <= GoogleSafeBrowsing.max_urls_per_request ->
      chunks = [urls]).
Proof.
  intros chunks. unfold chunks, GoogleSafeBrowsing.chunks, Py.range.
  set (size := GoogleSafeBrowsing.max_urls_per_request).
  assert (0 < size) as Hsize
    by (unfold size, GoogleSafeBrowsing.max_urls_per_request; lia).
  pose proof (Nat.div_mod_eq (length urls + size - 1) size) as Hdiv.
  pose proof (Nat.mod_upper_bound (length urls + size - 1) size) as Hmod.
  split.
  - intros k c Hk Hlast.
    rewrite !length_map, length_seq in Hlast.
    rewrite !list_lookup_fmap in Hk.
    rewrite lookup_seq_lt in Hk by lia. simpl in Hk. injection Hk as <-.
    rewrite slice_take_drop, length_take, length_drop.
    assert ((k + 2) * size <= (length urls + size - 1) / size * size) as Hle
      by (apply Nat.mul_le_mono_r; lia).
    rewrite (Nat.mul_comm _ size) in Hle. lia.
  - intros Hurls Hlen. fold size in Hlen.
    assert (length urls <> 0) by (destruct urls; [congruence|simpl; lia]).
    replace ((length urls + size - 1) / size) with 1.
    + simpl. unfold Py.slice. rewrite Nat.sub_0_r, drop_0.
      now rewrite take_ge by lia.
    + apply (Nat.div_unique _ _ 1 (length urls - 1)); lia.
Qed.

End SafeBrowsingRequests.

(** A set of two URLs whose request is answered with status 200. *)
Lemma any_match_stops_at_first_match_witness :
  GoogleSafeBrowsing.any_match (env := Fixtures.listing) Fixtures.safe_browsing
    ["http://a.com"; "http://b.com"; "http://a.com"] []
  = (Ok true,
     [HttpPost (GoogleSafeBrowsing._request_address Fixtures.safe_browsing)
        (GoogleSafeBrowsing.request_body ["http://b.com"; "http://a.com"])]).
Proof.
  apply (any_match_stops_at_first_match (env := Fixtures.listing)
           Fixtures.safe_browsing
           ["http://a.com"; "http://b.com"; "http://a.com"] []
           {| status_code := 200; text := "ok" |}).
  - repeat constructor.
  - discriminate.
  - reflexivity.
  - reflexivity.
Defined.

(** The same URLs on a network that answers with status 204. *)
Lemma any_match_without_match_witness :
  GoogleSafeBrowsing.any_match (env := Example.quiet) Fixtures.safe_browsing
    ["http://a.com"; "http://b.com"; "http://a.com"] []
  = (Ok false,
     [HttpPost (GoogleSafeBrowsing._request_address Fixtures.safe_browsing)
        (GoogleSafeBrowsing.request_body ["http://b.com"; "http://a.com"])]).
Proof.
  apply (any_match_without_match (env := Example.quiet)
           Fixtures.safe_browsing
           ["http://a.com"; "http://b.com"; "http://a.com"] []).
  - repeat constructor.
  - intros w' url body. eexists. repeat split. discriminate.
Defined.

(** Two URLs make one chunk. *)
Lemma chunks_full_but_last_witness :
  GoogleSafeBrowsing.chunks ["http://a.com"; "http://b.com"]
  = [["http://a.com"; "http://b.com"]].
Proof.
  apply (chunks_full_but_last ["http://a.com"; "http://b.com"]).
  - discriminate.
  - unfold GoogleSafeBrowsing.max_urls_per_request. simpl. lia.
Defined.

(** ** Bulk operations on no URL *)

Section NoUrl.
Context {Host : Type} {structures : Structures Host} {env : Environment}.
Context {Self : Type} {service : HostList.Service Host Self}.

(** X5.  On an empty sequence of URLs no bulk operation makes a request:
    [any_match] returns [False], and the generators of [lookup_matching] and
    [filter_matching] yield nothing, for a host list and for the Safe
    Browsing client. *)
Theorem bulk_operations_on_no_url (self : Self) (client : GoogleSafeBrowsing.t) w :
  list_of_set [] = [] ->
  HostList.any_match self [] w = (Ok false, w)
  /\ (exists items,
        HostList.lookup_matching self [] w = (Ok items, w)
        /\ Py.to_list items w = (Ok [], w))
  /\ (exists matching,
        HostList.filter_matching self [] w = (Ok matching, w)
        /\ Py.to_list matching w = (Ok [], w))
  /\ GoogleSafeBrowsing.any_match client [] w = (Ok false, w)
  /\ (exists items,
        GoogleSafeBrowsing.lookup_matching client [] w = (Ok items, w)
        /\ Py.to_list items w = (Ok [], w))
  /\ (exists matching,
        GoogleSafeBrowsing.filter_matching client [] w = (Ok matching, w)
        /\ Py.to_list matching w = (Ok [], w)).
Proof.
  intros Hset.
  split; [reflexivity|].
  split; [eexists; split; reflexivity|].
  split; [eexists; split; reflexivity|].
  unfold GoogleSafeBrowsing.any_match, GoogleSafeBrowsing.lookup_matching,
    GoogleSafeBrowsing.filter_matching,
    GoogleSafeBrowsing._get_classification_per_matching,
    GoogleSafeBrowsing._query, accepts_valid_urls.
  cbn [forallb]. cbv beta. rewrite Hset.
  split; [reflexivity|].
  split; eexists; split; reflexivity.
Qed.

End NoUrl.

Lemma bulk_operations_on_no_url_witness :
  GoogleSafeBrowsing.any_match (env := Fixtures.listing) Fixtures.safe_browsing [] []
  = (Ok false, []).
Proof.
  apply (bulk_operations_on_no_url (env := Fixtures.listing)
           Fixtures.blacklist Fixtures.safe_browsing []).
  reflexivity.
Defined.

(** ** Generators built from generators *)

Scheme Gen_mutual := Induction for Gen Sort Prop
  with GenStep_mutual := Induction for GenStep Sort Prop.

Lemma to_list_yield_from {B} (ys : list B) (k : Gen B) w :
  Py.to_list (Py.gen_yield_from ys k) w
  = match Py.to_list k w with
    | (Ok l, w') => (Ok (ys ++ l), w')
    | (Raise e, w') => (Raise e, w')
    end.
Proof.
  induction ys as [|y ys IH]; simpl.
  - now destruct (Py.to_list k w) as [[l|e] w'].
  - rewrite IH. now destruct (Py.to_list k w) as [[l|e] w'].
Qed.

(** Consuming [for x in g: for y in f(x): yield y] makes the requests of
    consuming [g] and gives the elements of [f(x)] for the elements [x] of
    [g], in order. *)
Lemma to_list_flat_map {A B} (f : A -> list B) (g : Gen A) :
  forall w,
    Py.to_list (Py.gen_flat_map f g) w
    = match Py.to_list g w with
      | (Ok l, w') => (Ok (concat (map f l)), w')
      | (Raise e, w') => (Raise e, w')
      end.
Proof.
  induction g as [step IH| | |] using Gen_mutual
    with (P0 := fun s =>
            match s with
            | GenYield _ rest _ =>
                forall w,
                  Py.to_list (Py.gen_flat_map f rest) w
                  = match Py.to_list rest w with
                    | (Ok l, w') => (Ok (concat (map f l)), w')
                    | (Raise e, w') => (Raise e, w')
                    end
            | _ => True
            end); try exact I; [|assumption].
  intros w. specialize (IH w). simpl.
  destruct (step w) as [w1|a rest w1|e w1]; try reflexivity.
  rewrite <- to_list_next, to_list_yield_from, IH.
  now destruct (Py.to_list rest w1) as [[l|e] w2].
Qed.

Lemma concat_map_singleton {A B} (g : A -> B) (l : list A) :
  concat (map (fun x => [g x]) l) = map g l.
Proof. induction l as [|x l IH]; simpl; [reflexivity|now rewrite IH]. Qed.

Lemma fst_filter_zip_sublist {A B} (P : A * B -> Prop)
  `{!forall p, Decision (P p)} (xs : list A) (ys : list B) :
  map fst (filter P (zip xs ys)) `sublist_of` xs.
Proof.
  revert ys. induction xs as [|x xs IH]; intros [|y ys]; simpl;
    try apply sublist_nil_l.
  rewrite filter_cons. destruct (decide (P (x, y))); simpl.
  - apply sublist_skip, IH.
  - apply sublist_cons, IH.
Qed.

(** ** Matches of the Safe Browsing client *)

Section SafeBrowsingMatches.
Context {env : Environment}.

(** The URLs of the pairs that [_get_classification_per_matching] yields
    for one chunk and its response. *)
Lemma query_yields_sublist (self : GoogleSafeBrowsing.t) (urls : list string)
  (pick : list string * Response -> list string) indices w l w' :
  (forall c response, pick (c, response) `sublist_of` c) ->
  let chunk i := Py.slice urls i (i + GoogleSafeBrowsing.max_urls_per_request) in
  Py.to_list
    (Py.gen_for indices (fun i =>
       response <- GoogleSafeBrowsing._query_once self (chunk i) ;
       ret (if (status_code response =? 200)%Z
            then Some (chunk i, response) else None))) w
  = (Ok l, w') ->
  concat (map pick l) `sublist_of` concat (map chunk indices).
Proof.
  intros Hpick chunk. revert w l w'.
  induction indices as [|i indices IH]; intros w l w'.
  - simpl. intros [= <- _]. constructor.
  - rewrite to_list_gen_for_cons. unfold bind at 1.
    destruct (GoogleSafeBrowsing._query_once self (chunk i) w)
      as [[response|e] w1]; [|discriminate].
    unfold ret at 1.
    destruct (status_code response =? 200)%Z.
    + destruct (Py.to_list _ w1) as [[l1|e] w2] eqn:Hrest; [|discriminate].
      intros [= <- _]. simpl.
      apply sublist_app; [apply Hpick|eapply IH, Hrest].
    + intros Hrest. simpl. eapply sublist_inserts_l, IH, Hrest.
Qed.

(** X6.  For valid URLs and on any network, [filter_matching] yields the
    values of the items that [lookup_matching] yields, in the same order,
    with the same requests and the same error if there is one. *)
Theorem filter_matching_yields_values_of_lookup_matching
  (self : GoogleSafeBrowsing.t) urls w :
  Forall (fun u => is_valid_url u = true) urls ->
  exists items matching,
    GoogleSafeBrowsing.lookup_matching self urls w = (Ok items, w)
    /\ GoogleSafeBrowsing.filter_matching self urls w = (Ok matching, w)
    /\ Py.to_list matching w
       = match Py.to_list items w with
         | (Ok found, w') => (Ok (map value found), w')
         | (Raise e, w') => (Raise e, w')
         end.
Proof.
  intros Hvalid.
  unfold GoogleSafeBrowsing.lookup_matching, GoogleSafeBrowsing.filter_matching.
  rewrite !accepts_valid_urls_valid by assumption.
  eexists. eexists. split; [reflexivity|]. split; [reflexivity|].
  rewrite !to_list_flat_map.
  destruct (Py.to_list
              (GoogleSafeBrowsing._get_classification_per_matching self urls) w)
    as [[pairs|e] w']; [|reflexivity].
  f_equal. f_equal.
  induction pairs as [|[url _class] pairs IH]; simpl; [reflexivity|].
  now rewrite IH.
Qed.

(** X7.  Whatever the network answers, the URLs that [filter_matching]
    yields are URLs of the input, in the order in which the set of the input
    lists them, and none of them is yielded twice. *)
Theorem filter_matching_yields_input_urls_once
  (self : GoogleSafeBrowsing.t) urls w :
  Forall (fun u => is_valid_url u = true) urls ->
  list_of_set urls ≡ₚ remove_dups urls ->
  exists matching,
    GoogleSafeBrowsing.filter_matching self urls w = (Ok matching, w)
    /\ forall yielded w',
         Py.to_list matching w = (Ok yielded, w') ->
         yielded `sublist_of` list_of_set urls
         /\ NoDup yielded
         /\ forall u, u ∈ yielded -> u ∈ urls.
Proof.
  intros Hvalid Hset.
  unfold GoogleSafeBrowsing.filter_matching.
  rewrite accepts_valid_urls_valid by assumption.
  eexists. split; [reflexivity|]. intros yielded w'.
  unfold GoogleSafeBrowsing._get_classification_per_matching.
  rewrite !to_list_flat_map.
  destruct (Py.to_list (GoogleSafeBrowsing._query self urls) w)
    as [[l|e] w1] eqn:Hquery; [|discriminate].
  intros [= <- _].
  assert (concat
            (map (fun '(url, _) => [url])
               (concat
                  (map (fun '(url_list, response) =>
                          filter (fun '(url, _class) => _class ≠ "ok")
                            (zip url_list (splitlines (text response)))) l)))
          `sublist_of` list_of_set urls) as Hsub.
  { rewrite <- (concat_range_slices (list_of_set urls)
                  GoogleSafeBrowsing.max_urls_per_request)
      by (unfold GoogleSafeBrowsing.max_urls_per_request; lia).
    pose proof (query_yields_sublist self (list_of_set urls)
                  (fun '(url_list, response) =>
                     map fst
                       (filter (fun '(url, _class) => _class ≠ "ok")
                          (zip url_list (splitlines (text response)))))
                  (Py.range (length (list_of_set urls))
                     GoogleSafeBrowsing.max_urls_per_request)
                  w l w1) as Hyield.
    replace (concat (map _ (concat _)))
      with (concat
              (map (fun '(url_list, response) =>
                      map fst
                        (filter (fun '(url, _class) => _class ≠ "ok")
                           (zip url_list (splitlines (text response))))) l)).
    - apply Hyield; [|exact Hquery].
      intros c response. apply fst_filter_zip_sublist.
    - clear. induction l as [|[url_list response] l IH]; [reflexivity|].
      simpl. rewrite IH, map_app, concat_app. f_equal.
      induction (filter _ _) as [|[url _class] pairs IHp]; [reflexivity|].
      simpl. now rewrite IHp. }
  split; [exact Hsub|]. split.
  - eapply sublist_NoDup; [|exact Hsub].
    rewrite Hset. apply NoDup_remove_dups.
  - intros u Hu. eapply elem_of_sublist in Hu; [|exact Hsub].
    rewrite Hset in Hu. now apply elem_of_remove_dups.
Qed.

End SafeBrowsingMatches.

(** A request that reports the first URL of two. *)
Lemma filter_matching_yields_values_of_lookup_matching_witness :
  let urls := ["http://a.com"; "http://b.com"; "http://a.com"] in
  exists items matching,
    GoogleSafeBrowsing.lookup_matching (env := Fixtures.reporting)
      Fixtures.safe_browsing urls [] = (Ok items, [])
    /\ GoogleSafeBrowsing.filter_matching (env := Fixtures.reporting)
         Fixtures.safe_browsing urls [] = (Ok matching, [])
    /\ Py.to_list matching []
       = match Py.to_list items [] with
         | (Ok found, w') => (Ok (map value found), w')
         | (Raise e, w') => (Raise e, w')
         end.
Proof.
  intros urls.
  apply (filter_matching_yields_values_of_lookup_matching
           (env := Fixtures.reporting) Fixtures.safe_browsing urls []).
  repeat constructor.
Defined.

Lemma filter_matching_yields_input_urls_once_witness :
  let urls := ["http://a.com"; "http://b.com"; "http://a.com"] in
  exists matching,
    GoogleSafeBrowsing.filter_matching (env := Fixtures.reporting)
      Fixtures.safe_browsing urls [] = (Ok matching, [])
    /\ Py.to_list matching []
       = (Ok ["http://b.com"],
          [HttpPost (GoogleSafeBrowsing._request_address Fixtures.safe_browsing)
             (GoogleSafeBrowsing.request_body ["http://b.com"; "http://a.com"])])
    /\ NoDup ["http://b.com"].
Proof.
  intros urls.
  destruct (filter_matching_yields_input_urls_once
              (env := Fixtures.reporting) Fixtures.safe_browsing urls [])
    as (matching & Hcall & Hyielded).
  - repeat constructor.
  - reflexivity.
  - exists matching. split; [exact Hcall|].
    injection Hcall as <-.
    split; [reflexivity|]. now eapply Hyielded.
Defined.

(** ** Bulk operations of a host list *)

Section BulkOperations.
Context {Host : Type} {structures : Structures Host} {env : Environment}.
Context {Self : Type} {service : HostList.Service Host Self}.

Lemma any_next (g : Gen bool) w :
  Py.any g w =
  match Py.next g w with
  | GenStop w' => (Ok false, w')
  | GenRaise e w' => (Raise e, w')
  | GenYield true _ w' => (Ok true, w')
  | GenYield false rest w' => Py.any rest w'
  end.
Proof. now destruct g. Qed.

Lemma any_gen_for_cons {A} (test : A -> M bool) x xs w :
  Py.any (Py.gen_for (x :: xs) (fun y => b <- test y ; ret (Some b))) w =
  match test x w with
  | (Raise e, w') => (Raise e, w')
  | (Ok true, w') => (Ok true, w')
  | (Ok false, w') =>
      Py.any (Py.gen_for xs (fun y => b <- test y ; ret (Some b))) w'
  end.
Proof.
  rewrite any_next, next_gen_for_cons. unfold bind at 1.
  now destruct (test x w) as [[[|]|e] w'].
Qed.

Lemma any_gen_for_false {A} (test : A -> M bool) xs w :
  (forall x w', x ∈ xs -> exists w'', test x w' = (Ok false, w'')) ->
  exists w', Py.any (Py.gen_for xs (fun y => b <- test y ; ret (Some b))) w
             = (Ok false, w').
Proof.
  revert w. induction xs as [|x xs IH]; intros w Htest.
  - now exists w.
  - rewrite any_gen_for_cons.
    destruct (Htest x w (list_elem_of_here _ _)) as [w1 ->].
    apply IH. intros y w' Hy. apply Htest. now right.
Qed.

Lemma any_gen_for_first {A} (test : A -> M bool) before x after w :
  (forall v w', v ∈ before -> exists w'', test v w' = (Ok false, w'')) ->
  (forall w', exists w'', test x w' = (Ok true, w'')) ->
  exists w',
    Py.any (Py.gen_for (before ++ x :: after)
              (fun y => b <- test y ; ret (Some b))) w
    = (Ok true, w').
Proof.
  intros Hbefore Hlisted. revert w.
  induction before as [|v before IH]; intros w; simpl app;
    rewrite any_gen_for_cons.
  - destruct (Hlisted w) as [w1 ->]. now exists w1.
  - destruct (Hbefore v w (list_elem_of_here _ _)) as [w1 ->].
    apply IH. intros y w' Hy. apply Hbefore. now right.
Qed.

(** X8.  [any_match] tests the hosts of the URLs in order and stops at
    the first one that is listed: when the hosts of the URLs before [u] are
    not listed and the host of [u] is, it returns [True], whatever the
    service would answer for the URLs after [u]. *)
Theorem any_match_stops_at_first_listed (self : Self) before u after w :
  Forall (fun v => is_valid_url v = true) (before ++ u :: after) ->
  (forall v w', v ∈ before ->
     exists w'',
       HostList.__contains__ self (urlparse_hostname v) w' = (Ok false, w'')) ->
  (forall w',
     exists w'',
       HostList.__contains__ self (urlparse_hostname u) w' = (Ok true, w'')) ->
  exists w',
    HostList.any_match self (before ++ u :: after) w = (Ok true, w').
Proof.
  intros Hvalid Hbefore Hlisted.
  unfold HostList.any_match. rewrite accepts_valid_urls_valid by assumption.
  now apply (any_gen_for_first
               (fun v => HostList.__contains__ self (urlparse_hostname v))).
Qed.

(** X9.  When no URL has a listed host, [any_match] returns [False]. *)
Theorem any_match_without_listed_host (self : Self) urls w :
  Forall (fun v => is_valid_url v = true) urls ->
  (forall v w', v ∈ urls ->
     exists w'',
       HostList.__contains__ self (urlparse_hostname v) w' = (Ok false, w'')) ->
  exists w', HostList.any_match self urls w = (Ok false, w').
Proof.
  intros Hvalid Hnone.
  unfold HostList.any_match. rewrite accepts_valid_urls_valid by assumption.
  now apply (any_gen_for_false
               (fun v => HostList.__contains__ self (urlparse_hostname v))).
Qed.

Lemma to_list_gen_for_omap {A B} (body : A -> M (option B))
  (value_of : A -> option B) xs w :
  (forall x w', x ∈ xs -> exists w'', body x w' = (Ok (value_of x), w'')) ->
  exists w', Py.to_list (Py.gen_for xs body) w = (Ok (omap value_of xs), w').
Proof.
  revert w. induction xs as [|x xs IH]; intros w Hbody.
  - now exists w.
  - rewrite to_list_gen_for_cons.
    destruct (Hbody x w (list_elem_of_here _ _)) as [w1 ->].
    destruct (IH w1) as [w2 Hrest].
    { intros y w' Hy. apply Hbody. now right. }
    exists w2. simpl. destruct (value_of x); now rewrite Hrest.
Qed.

(** X10.  For valid URLs whose hosts the service answers for, [found]
    giving the item of a host if there is one, [lookup_matching] returns a
    generator without making a request, and the generator yields the items
    of the URLs whose host has one, in the order of the input. *)
Theorem lookup_matching_yields_found_items
  (self : Self) (found : string -> option (AddressListItem Self)) urls w :
  Forall (fun u => is_valid_url u = true) urls ->
  (forall u w', u ∈ urls ->
     exists w'',
       HostList.lookup self (urlparse_hostname u) w'
       = (Ok (found (urlparse_hostname u)), w'')) ->
  exists items w',
    HostList.lookup_matching self urls w = (Ok items, w)
    /\ Py.to_list items w
       = (Ok (omap (fun u => found (urlparse_hostname u)) urls), w').
Proof.
  intros Hvalid Hfound.
  unfold HostList.lookup_matching.
  rewrite accepts_valid_urls_valid by assumption.
  destruct (to_list_gen_for_omap
              (fun u => HostList.lookup self (urlparse_hostname u))
              (fun u => found (urlparse_hostname u)) urls w Hfound)
    as [w' Hlist].
  eexists. exists w'. split; [reflexivity|exact Hlist].
Qed.

End BulkOperations.

(** ** Host collections as host lists *)

Section CollectionLists.
Context {Host : Type} {structures : Structures Host} {env : Environment}.

(** X11.  For a valid host string that the factory of a collection
    accepts, the membership test is [True] exactly when [lookup] returns an
    item, and neither makes a request. *)
Theorem collection_contains_iff_lookup
  (self : HostCollection.t Host) factory host_value host_object w :
  is_valid_host host_value = true ->
  HostCollection._host_factory self = Some factory ->
  factory host_value = Ok host_object ->
  exists listed item,
    HostList.__contains__ self host_value w = (Ok listed, w)
    /\ HostList.lookup self host_value w = (Ok item, w)
    /\ (listed = true <-> is_Some item).
Proof.
  intros Hvalid Hfactory Hobj.
  rewrite (collection_contains self factory host_value host_object w) by assumption.
  rewrite (collection_lookup self factory host_value host_object w) by assumption.
  eexists. eexists. split; [reflexivity|]. split; [reflexivity|].
  rewrite contains_exists.
  destruct (HostCollection.first_match host_object (HostCollection.hosts self))
    as [m|] eqn:Hfirst.
  - apply first_match_some in Hfirst. split; [eauto|]. intros _. now exists m.
  - rewrite first_match_none in Hfirst. split.
    + intros (m & Hm & Htest). rewrite (Hfirst m Hm) in Htest. discriminate.
    + intros [item Hitem]. discriminate.
Qed.

(** X12.  A collection built without hosts lists no host.  After a host
    that matches itself is added to it, the collection has that host as its
    only member, the membership test of the host string is [True] and
    [lookup] returns the item made of the text of the host, the collection
    and its classification. *)
Theorem collection_lists_added_host
  identifier classification host_value host_object w :
  is_valid_host host_value = true ->
  hostname_or_ip host_value = Ok host_object ->
  is_subdomain host_object host_object || host_eq host_object host_object = true ->
  exists empty added,
    HostCollection.__init__ identifier classification [] = Ok empty
    /\ HostList.__contains__ empty host_value w = (Ok false, w)
    /\ HostList.lookup empty host_value w = (Ok None, w)
    /\ HostCollection.add empty host_value = Ok added
    /\ HostCollection.hosts added = [host_object]
    /\ HostList.__contains__ added host_value w = (Ok true, w)
    /\ HostList.lookup added host_value w
       = (Ok (Some (Build_AddressListItem (to_unicode host_object) added
                      (list_to_set classification))), w).
Proof.
  intros Hvalid Hobj Hself.
  eexists. eexists. split; [reflexivity|].
  split.
  { now rewrite (collection_contains _ hostname_or_ip host_value host_object w). }
  split.
  { now rewrite (collection_lookup _ hostname_or_ip host_value host_object w). }
  split.
  { unfold HostCollection.add. simpl. rewrite Hobj. reflexivity. }
  split; [reflexivity|].
  split.
  - rewrite (collection_contains _ hostname_or_ip host_value host_object w)
      by (assumption || reflexivity).
    unfold HostCollection._contains. simpl. now rewrite Hself.
  - rewrite (collection_lookup _ hostname_or_ip host_value host_object w)
      by (assumption || reflexivity).
    simpl. now rewrite Hself.
Qed.

End CollectionLists.

(** ** Answers of a DNSBL *)

Section BlacklistAnswers.
Context {Host : Type} {structures : Structures Host} {env : Environment}.

Lemma query_failed (self : DNSBL.t Host) host_object e w :
  let query_name :=
    DNSBL.derelativize (relative_domain host_object) (DNSBL._query_suffix self) in
  query_answer w query_name = Raise e ->
  DNSBL._query self host_object w
  = (match e with NXDOMAIN => Ok None | _ => Raise e end,
     w ++ [DnsQuery query_name]).
Proof.
  intros query_name Hanswer.
  unfold DNSBL._query, try_except, bind, query, ret.
  fold query_name. rewrite Hanswer. now destruct e.
Qed.

(** X13.  A DNSBL sends one DNS query for the relative domain of the host
    followed by the suffix of the service.  When the resolver raises
    [NXDOMAIN] the host is not listed: the membership test returns [False]
    and [lookup] returns [None].  Any other error of the resolver is raised
    by both. *)
Theorem dnsbl_resolver_error (self : DNSBL.t Host) host_value host_object e w :
  is_valid_host host_value = true ->
  DNSBL._host_factory self host_value = Ok host_object ->
  let query_name :=
    DNSBL.derelativize (relative_domain host_object) (DNSBL._query_suffix self) in
  query_answer w query_name = Raise e ->
  HostList.__contains__ self host_value w
  = (match e with NXDOMAIN => Ok false | _ => Raise e end,
     w ++ [DnsQuery query_name])
  /\ HostList.lookup self host_value w
     = (match e with NXDOMAIN => Ok None | _ => Raise e end,
        w ++ [DnsQuery query_name]).
Proof.
  intros Hvalid Hobj query_name Hanswer.
  split; [unfold HostList.__contains__|unfold HostList.lookup];
    rewrite accepts_valid_host_valid by assumption;
    unfold bind at 1;
    (erewrite try_host_factory_ok; [| reflexivity | exact Hobj]);
    simpl; unfold DNSBL._contains, DNSBL._get_match_and_classification, bind;
    rewrite (query_failed self host_object e w Hanswer);
    now destruct e.
Qed.

Lemma classify_union (self : DNSBL.t Host) answer classes :
  Forall2 (fun a labels => DNSBL.decode self a = Ok labels) answer classes ->
  forall classification,
    DNSBL.classify self answer classification
    = Ok (classification ∪ ⋃ classes).
Proof.
  induction 1 as [|a labels answer classes Ha _ IH]; intros classification; simpl.
  - now rewrite (right_id_L ∅ (∪)).
  - rewrite Ha. simpl. rewrite IH. now rewrite (assoc_L (∪)).
Qed.

(** X14.  When the resolver answers with records whose codes the
    classification map knows, the host is listed: the membership test
    returns [True], and [lookup] returns the item made of the text of the
    host, the service and the union of the classes of all the records. *)
Theorem dnsbl_listed_host
  (self : DNSBL.t Host) host_value host_object answer classes w :
  is_valid_host host_value = true ->
  DNSBL._host_factory self host_value = Ok host_object ->
  let query_name :=
    DNSBL.derelativize (relative_domain host_object) (DNSBL._query_suffix self) in
  query_answer w query_name = Ok answer ->
  answer <> [] ->
  Forall2 (fun a labels => DNSBL.decode self a = Ok labels) answer classes ->
  HostList.__contains__ self host_value w = (Ok true, w ++ [DnsQuery query_name])
  /\ HostList.lookup self host_value w
     = (Ok (Some (Build_AddressListItem (to_unicode host_object) self
                    (⋃ classes))),
        w ++ [DnsQuery query_name]).
Proof.
  intros Hvalid Hobj query_name Hanswer Hrecords Hclasses.
  split; [unfold HostList.__contains__|unfold HostList.lookup];
    rewrite accepts_valid_host_valid by assumption;
    unfold bind at 1;
    (erewrite try_host_factory_ok; [| reflexivity | exact Hobj]);
    simpl; unfold DNSBL._contains, DNSBL._get_match_and_classification, bind;
    rewrite (query_listed self host_object answer w Hanswer).
  - unfold ret. destruct answer; [congruence|reflexivity].
  - unfold try_except, bind, lift, ret.
    rewrite (classify_union self answer classes Hclasses).
    now rewrite (left_id_L ∅ (∪)).
Qed.

End BlacklistAnswers.

(** The second of three URLs has a host under [b.com]. *)
Lemma any_match_stops_at_first_listed_witness :
  exists w',
    HostList.any_match (env := Example.quiet) Fixtures.blacklist
      (["http://c.com"] ++ "http://a.b.com/x" :: ["http://d.com"]) []
    = (Ok true, w').
Proof.
  apply (any_match_stops_at_first_listed (env := Example.quiet)
           Fixtures.blacklist ["http://c.com"] "http://a.b.com/x"
           ["http://d.com"] []).
  - repeat constructor.
  - intros v w' Hv. apply list_elem_of_In in Hv.
    destruct Hv as [<-|[]]. now exists w'.
  - intros w'. now exists w'.
Defined.

Lemma any_match_without_listed_host_witness :
  exists w',
    HostList.any_match (env := Example.quiet) Fixtures.blacklist
      ["http://c.com"; "http://d.com"] []
    = (Ok false, w').
Proof.
  apply (any_match_without_listed_host (env := Example.quiet)
           Fixtures.blacklist ["http://c.com"; "http://d.com"] []).
  - repeat constructor.
  - intros v w' Hv. apply list_elem_of_In in Hv.
    destruct Hv as [<-|[<-|[]]]; now exists w'.
Defined.

Lemma lookup_matching_yields_found_items_witness :
  exists items w',
    HostList.lookup_matching (env := Example.quiet) Fixtures.blacklist
      ["http://a.b.com/x"; "http://c.com"] []
    = (Ok items, [])
    /\ Py.to_list items []
       = (Ok [Build_AddressListItem "b.com" Fixtures.blacklist {["spam"]}], w').
Proof.
  destruct (lookup_matching_yields_found_items (env := Example.quiet)
              Fixtures.blacklist
              (fun h =>
                 match Example.example_hostname_or_ip h with
                 | Ok q =>
                     match HostCollection._get_match_and_classification
                             Fixtures.blacklist q with
                     | Some (m, classification) =>
                         Some (Build_AddressListItem (to_unicode m)
                                 Fixtures.blacklist classification)
                     | None => None
                     end
                 | Raise _ => None
                 end)
              ["http://a.b.com/x"; "http://c.com"] [])
    as (items & w' & Hcall & Hlist).
  - repeat constructor.
  - intros u w' Hu. exists w'. apply list_elem_of_In in Hu.
    destruct Hu as [<-|[<-|[]]]; reflexivity.
  - exists items, w'. split; [exact Hcall|exact Hlist].
Defined.

Lemma collection_contains_iff_lookup_witness :
  exists listed item,
    HostList.__contains__ (env := Example.quiet) Fixtures.blacklist "a.b.com" []
    = (Ok listed, [])
    /\ HostList.lookup (env := Example.quiet) Fixtures.blacklist "a.b.com" []
       = (Ok item, [])
    /\ (listed = true <-> is_Some item).
Proof.
  apply (collection_contains_iff_lookup (env := Example.quiet)
           Fixtures.blacklist Example.example_hostname_or_ip
           "a.b.com" Fixtures.a_b_com []);
    reflexivity.
Defined.

Lemma collection_lists_added_host_witness :
  exists empty added,
    HostCollection.__init__ "blacklist" ["spam"] [] = Ok empty
    /\ HostCollection.add empty "b.com" = Ok added
    /\ HostList.__contains__ (env := Example.quiet) added "b.com" []
       = (Ok true, []).
Proof.
  destruct (collection_lists_added_host (env := Example.quiet)
              "blacklist" ["spam"] "b.com" Fixtures.b_com [])
    as (empty & added & Hinit & _ & _ & Hadd & _ & Hcontains & _);
    [reflexivity..|].
  exists empty, added. repeat split; assumption.
Defined.

(** A hostname on a network where no name is listed. *)
Lemma dnsbl_resolver_error_witness :
  HostList.__contains__ (env := Example.quiet)
    (service := DNSBL.service (env := Example.quiet))
    Fixtures.domain_dnsbl "t1.pl" []
  = (Ok false, [DnsQuery "t1.pl.test.query.domain"]).
Proof.
  destruct (dnsbl_resolver_error (env := Example.quiet)
              Fixtures.domain_dnsbl "t1.pl" (Example.Hostname ["t1"; "pl"])
              NXDOMAIN [])
    as [Hcontains _]; [reflexivity..|exact Hcontains].
Defined.

(** A hostname whose answer has one record, with the code 2. *)
Lemma dnsbl_listed_host_witness :
  HostList.lookup (env := Fixtures.listed_as_spam)
    (service := DNSBL.service (env := Fixtures.listed_as_spam))
    Fixtures.domain_dnsbl "t1.pl" []
  = (Ok (Some (Build_AddressListItem "t1.pl" Fixtures.domain_dnsbl
                 (⋃ [{["spam"]}]))),
     [DnsQuery "t1.pl.test.query.domain"]).
Proof.
  destruct (dnsbl_listed_host (env := Fixtures.listed_as_spam)
              Fixtures.domain_dnsbl "t1.pl" (Example.Hostname ["t1"; "pl"])
              ["127.0.0.2"] [{["spam"]}] [])
    as [_ Hlookup].
  - reflexivity.
  - reflexivity.
  - reflexivity.
  - discriminate.
  - repeat constructor.
  - exact Hlookup.
Defined.

(** ** Splitting and joining *)

Lemma split_not_nil sep s : Py.split sep s <> [].
Proof.
  destruct s as [|c s]; simpl; [discriminate|].
  destruct (Ascii.eqb c sep); [discriminate|].
  destruct (Py.split sep s); discriminate.
Qed.

(** Splitting at a separator splits what is before it and what is after
    it. *)
Lemma split_app sep a b :
  Py.split sep (a +:+ String sep b) = Py.split sep a ++ Py.split sep b.
Proof.
  induction a as [|c a IH]; simpl.
  - now rewrite Ascii.eqb_refl.
  - destruct (Ascii.eqb c sep); [now rewrite IH|].
    rewrite IH. pose proof (split_not_nil sep a) as Hne.
    now destruct (Py.split sep a).
Qed.

Lemma contains_char sep c s :
  Py.contains (String sep "") (String c s)
  = Ascii.eqb c sep || Py.contains (String sep "") s.
Proof.
  simpl. destruct (ascii_dec sep c) as [<-|Hne].
  - rewrite Ascii.eqb_refl. now destruct s.
  - replace (Ascii.eqb c sep) with false; [reflexivity|].
    symmetry. apply Ascii.eqb_neq. congruence.
Qed.

Lemma split_without sep s :
  Py.contains (String sep "") s = false -> Py.split sep s = [s].
Proof.
  induction s as [|c s IH]; [reflexivity|].
  rewrite contains_char. intros [Hc Hs]%orb_false_elim.
  simpl. now rewrite Hc, (IH Hs).
Qed.

Lemma split_join sep pieces :
  pieces <> [] ->
  Forall (fun piece => Py.contains (String sep "") piece = false) pieces ->
  Py.split sep (Py.join (String sep "") pieces) = pieces.
Proof.
  intros Hne Hpieces. induction Hpieces as [|piece pieces Hpiece _ IH];
    [congruence|].
  destruct pieces as [|next pieces].
  - simpl. now apply split_without.
  - change (Py.join (String sep "") (piece :: next :: pieces))
      with (piece +:+ String sep (Py.join (String sep "") (next :: pieces))).
    rewrite split_app, IH by discriminate.
    now rewrite (split_without sep piece Hpiece).
Qed.

Lemma digits_without_dot acc s n :
  Py.int_digits acc s = Some n -> Py.contains "." s = false.
Proof.
  revert acc. induction s as [|c s IH]; intros acc; [reflexivity|].
  rewrite contains_char. simpl.
  destruct (Py.digit_value c) as [d|] eqn:Hdigit; [|discriminate].
  intros Hrest. rewrite (IH _ Hrest), orb_false_r.
  apply Ascii.eqb_neq. intros ->. discriminate.
Qed.

Lemma last_app_nonempty {A} (l1 l2 : list A) d :
  l2 <> [] -> List.last (l1 ++ l2) d = List.last l2 d.
Proof.
  intros Hne. induction l1 as [|x l1 IH]; [reflexivity|].
  simpl. rewrite IH. destruct (l1 ++ l2) eqn:Happ; [|reflexivity].
  apply app_eq_nil in Happ. destruct Happ. congruence.
Qed.

Lemma pretty_go_without_newline x s :
  Py.contains Py.newline s = false ->
  Py.contains Py.newline (pretty_N_go x s) = false.
Proof.
  revert s. induction (N.lt_wf_0 x) as [x _ IH]; intros s Hs.
  destruct (decide (x = 0)%N) as [->|Hx]; [now rewrite pretty_N_go_0|].
  rewrite pretty_N_go_step by lia. apply IH.
  - apply N.div_lt; lia.
  - unfold Py.newline. rewrite contains_char. fold Py.newline. rewrite Hs.
    unfold pretty_N_char. now repeat case_match.
Qed.

Lemma pretty_without_newline (n : nat) :
  Py.contains Py.newline (pretty n) = false.
Proof.
  unfold pretty, pretty_nat, pretty, pretty_N.
  destruct (decide (N.of_nat n = 0%N)); [reflexivity|].
  now apply pretty_go_without_newline.
Qed.

(** X15.  The body of a request for URLs that hold no newline has the
    number of the URLs on its first line and one URL on each line after it:
    splitting the body at the newlines gives the number and the URLs. *)
Theorem request_body_lists_urls (urls : list string) :
  urls <> [] ->
  Forall (fun u => Py.contains Py.newline u = false) urls ->
  Py.split (ascii_of_nat 10) (GoogleSafeBrowsing.request_body urls)
  = pretty (length urls) :: urls.
Proof.
  intros Hne Hurls. unfold GoogleSafeBrowsing.request_body.
  change (pretty (length urls) +:+ Py.newline +:+ Py.join Py.newline urls)
    with (pretty (length urls)
            +:+ String (ascii_of_nat 10) (Py.join Py.newline urls)).
  rewrite split_app.
  rewrite (split_without _ _ (pretty_without_newline (length urls))).
  unfold Py.newline. now rewrite split_join.
Qed.

Lemma request_body_lists_urls_witness :
  Py.split (ascii_of_nat 10)
    (GoogleSafeBrowsing.request_body ["http://a.com"; "http://b.com"])
  = ["2"; "http://a.com"; "http://b.com"].
Proof.
  apply (request_body_lists_urls ["http://a.com"; "http://b.com"]).
  - discriminate.
  - repeat constructor.
Defined.

Section Codes.
Context {Host : Type}.

(** X16.  The code of a record of an answer is the number after the last
    dot of its text: when that text is a decimal number, [decode] gives the
    entry of the classification map for it. *)
Theorem decode_reads_last_octet (self : DNSBL.t Host) rest octet code :
  Py.int octet = Ok code ->
  DNSBL.decode self (rest +:+ "." +:+ octet)
  = DNSBL._classification_map self code.
Proof.
  intros Hcode. unfold DNSBL.decode.
  change (rest +:+ "." +:+ octet) with (rest +:+ String "." octet).
  rewrite split_app, last_app_nonempty by apply split_not_nil.
  assert (Py.contains "." octet = false) as Hdot.
  { unfold Py.int in Hcode. destruct octet; [discriminate|].
    destruct (Py.int_digits 0 _) eqn:Hdigits; [|discriminate].
    eapply digits_without_dot, Hdigits. }
  rewrite (split_without _ _ Hdot). simpl. now rewrite Hcode.
Qed.

End Codes.

Lemma decode_reads_last_octet_witness :
  DNSBL.decode Fixtures.domain_dnsbl "127.0.0.2" = Ok {["spam"]}.
Proof.
  apply (decode_reads_last_octet Fixtures.domain_dnsbl "127.0.0" "2" 2).
  reflexivity.
Defined.

(** ** Answers of hpHosts *)

Section HostsFile.
Context {Host : Type} {structures : Structures Host} {env : Environment}.
Context {imports : Imports Host}.

(** X17.  For a valid host string that the factory of the client
    accepts, the membership test sends one GET request, for the text of the
    host, and returns [True] unless the answer holds "Not Listed".  [lookup]
    sends the same request with [&class=true] added; when the answer is a
    status followed by classes, separated by commas, it returns [None] if
    the answer holds "Not Listed", and otherwise the item made of the text
    of the host, the client and the set of the classes. *)
Theorem hp_hosts_answers (self : HpHosts.t Host) host_value host_object
  listing details status classes w w1 w2 :
  is_valid_host host_value = true ->
  HpHosts._host_factory self host_value = Ok host_object ->
  let url :=
    "http://verify.hosts-file.net/?v=" +:+ HpHosts.app_id self
      +:+ "&s=" +:+ to_unicode host_object in
  get url w = (Ok listing, w1) ->
  get (url +:+ "&class=true") w = (Ok details, w2) ->
  text details = Py.join "," (status :: classes) ->
  Forall (fun field => Py.contains "," field = false) (status :: classes) ->
  HostList.__contains__ self host_value w
  = (Ok (negb (Py.contains "Not Listed" (text listing))), w1)
  /\ HostList.lookup self host_value w
     = (Ok (if Py.contains "Not Listed" (text details) then None
            else Some (Build_AddressListItem (to_unicode host_object) self
                         (list_to_set classes))),
        w2).
Proof.
  intros Hvalid Hobj url Hlisting Hdetails Htext Hfields.
  split; [unfold HostList.__contains__|unfold HostList.lookup];
    rewrite accepts_valid_host_valid by assumption;
    unfold bind at 1;
    (erewrite try_host_factory_ok; [| reflexivity | exact Hobj]);
    simpl;
    unfold HpHosts._contains, HpHosts._get_match_and_classification,
      HpHosts._query, bind, ret;
    fold url.
  - now rewrite Hlisting.
  - rewrite Hdetails. unfold HpHosts._NOT_LISTED.
    destruct (Py.contains "Not Listed" (text details)); [reflexivity|].
    rewrite Htext, (split_join "," (status :: classes))
      by (discriminate || assumption).
    reflexivity.
Qed.

End HostsFile.

(** A hostname that the server lists in the classes EMD and PSH. *)
Lemma hp_hosts_answers_witness :
  let self := HpHosts.__init__ (imports := Fixtures.hp_listing) "spam_lists" in
  HostList.lookup (env := Example.quiet)
    (service := HpHosts.service (imports := Fixtures.hp_listing))
    self "t1.pl" []
  = (Ok (Some (Build_AddressListItem "t1.pl" self (list_to_set ["EMD"; "PSH"]))),
     []).
Proof.
  intros self.
  destruct (hp_hosts_answers (env := Example.quiet)
              (imports := Fixtures.hp_listing)
              self "t1.pl" (Example.Hostname ["t1"; "pl"])
              {| status_code := 200; text := "Listed,EMD,PSH" |}
              {| status_code := 200; text := "Listed,EMD,PSH" |}
              "Listed" ["EMD"; "PSH"] [] [] [])
    as [_ Hlookup].
  - reflexivity.
  - reflexivity.
  - reflexivity.
  - reflexivity.
  - reflexivity.
  - repeat constructor.
  - exact Hlookup.
Defined.

(** ** One request of the Safe Browsing client *)

Section SingleRequest.
Context {env : Environment}.

Lemma range_single stop step :
  0 < stop -> stop <= step -> Py.range stop step = [0].
Proof.
  intros Hstop Hstep. unfold Py.range.
  replace ((stop + step - 1) / step) with 1; [reflexivity|].
  apply (Nat.div_unique _ _ 1 (stop - 1)); lia.
Qed.

(** X18.  When the set of the valid URLs has at most
    [max_urls_per_request] members, [filter_matching] sends them in one
    request; if the response has status 200, the generator yields the URLs
    whose line of the response is not "ok", in the order of the request. *)
Theorem filter_matching_single_request
  (self : GoogleSafeBrowsing.t) urls w response :
  Forall (fun u => is_valid_url u = true) urls ->
  list_of_set urls <> [] ->
  length (list_of_set urls) <= GoogleSafeBrowsing.max_urls_per_request ->
  let address := GoogleSafeBrowsing._request_address self in
  let body := GoogleSafeBrowsing.request_body (list_of_set urls) in
  post_response w address body = Ok response ->
  status_code response = 200%Z ->
  exists matching,
    GoogleSafeBrowsing.filter_matching self urls w = (Ok matching, w)
    /\ Py.to_list matching w
       = (Ok (map fst
                (filter (fun '(url, _class) => _class ≠ "ok")
                   (zip (list_of_set urls) (splitlines (text response))))),
          w ++ [HttpPost address body]).
Proof.
  intros Hvalid Hne Hlen address body Hresponse Hstatus.
  unfold GoogleSafeBrowsing.filter_matching.
  rewrite accepts_valid_urls_valid by assumption.
  eexists. split; [reflexivity|].
  unfold GoogleSafeBrowsing._get_classification_per_matching.
  rewrite !to_list_flat_map.
  unfold GoogleSafeBrowsing._query.
  rewrite range_single;
    [|destruct (list_of_set urls); [congruence|simpl; lia]|exact Hlen].
  rewrite to_list_gen_for_cons. unfold bind at 1.
  assert (Py.slice (list_of_set urls) 0
            (0 + GoogleSafeBrowsing.max_urls_per_request)
          = list_of_set urls) as ->.
  { rewrite slice_take_drop, drop_0. now apply take_ge. }
  rewrite (query_once_accepted self (list_of_set urls) w response Hresponse)
    by (unfold raise_for_status; now rewrite Hstatus).
  unfold ret at 1. rewrite Hstatus. simpl. rewrite !app_nil_r.
  f_equal. f_equal.
  induction (filter _ _) as [|[url _class] pairs IH]; [reflexivity|].
  simpl. now rewrite IH.
Qed.

End SingleRequest.

(** Two URLs of which the server reports the first. *)
Lemma filter_matching_single_request_witness :
  let urls := ["http://a.com"; "http://b.com"; "http://a.com"] in
  exists matching,
    GoogleSafeBrowsing.filter_matching (env := Fixtures.reporting)
      Fixtures.safe_browsing urls [] = (Ok matching, [])
    /\ Py.to_list matching []
       = (Ok ["http://b.com"],
          [HttpPost (GoogleSafeBrowsing._request_address Fixtures.safe_browsing)
             (GoogleSafeBrowsing.request_body ["http://b.com"; "http://a.com"])]).
Proof.
  intros urls.
  destruct (filter_matching_single_request (env := Fixtures.reporting)
              Fixtures.safe_browsing urls []
              {| status_code := 200; text := "malware" |})
    as (matching & Hcall & Hlist).
  - repeat constructor.
  - discriminate.
  - unfold GoogleSafeBrowsing.max_urls_per_request. simpl. lia.
  - reflexivity.
  - reflexivity.
  - exists matching. split; [exact Hcall|exact Hlist].
Defined.
